(** * WHMCS WhatsApp bridge (src/index.js): connection lifecycle, message
    dispatcher and control API, as a shallow embedding.

    The program is one Node.js module whose handlers read and write a handful
    of module-level variables, the credential directory [auth_info] and a
    number of external collaborators (the Baileys socket, axios, the QR
    encoder).  The embedding keeps that shape:

    - the module-level [let] variables are the fields of [state];
    - the credential directory is a small file-system model ([disk]);
    - every call that leaves the process (an [fs] call, [setTimeout],
      [axios.get], [axios.post], [sock.sendMessage], [sock.logout],
      [sock.requestPairingCode]) is appended to the [trace] field, in program
      order;
    - what a collaborator answers is read from an [Env] record;
    - handlers are written in a state-and-exception monad [M], so that the
      [try]/[catch] blocks of the source are visible in the model.

    Not modelled: [console.log] output; what the Baileys library itself reads
    and writes under [auth_info] ([useMultiFileAuthState] at line 148 and the
    [saveCreds] function registered on [creds.update] at line 258), so that
    the model's credential directory changes through the module's own [fs]
    calls only; the HTTP listener; and the interleaving of two handlers at an
    [await]: a handler invocation runs to completion, except for the
    connection-open handler, whose 5 second settle delay is a timer task of
    its own. *)

From Stdlib Require Import ZArith String Ascii List Bool Lia.
From stdpp Require Import base option list strings pretty gmap fin_maps.

Local Open Scope string_scope.
Local Open Scope Z_scope.

(** ** JavaScript string helpers *)
Module JsString.

(** [s.includes(sub)] *)
Fixpoint includes (s sub : string) : bool :=
  String.prefix sub s ||
  match s with
  | EmptyString => false
  | String _ s' => includes s' sub
  end.

(** [s.split(sep)[0]] for a one-character separator: the text before the
    first occurrence of [sep], or the whole of [s] when there is none. *)
Fixpoint split_head (sep : ascii) (s : string) : string :=
  match s with
  | EmptyString => EmptyString
  | String c s' =>
      if Ascii.eqb c sep then EmptyString else String c (split_head sep s')
  end.

Definition is_digit (c : ascii) : bool :=
  let n := nat_of_ascii c in (Nat.leb 48 n && Nat.leb n 57)%bool.

(** [s.replace(/\D/g, "")] *)
Fixpoint digits_only (s : string) : string :=
  match s with
  | EmptyString => EmptyString
  | String c s' =>
      if is_digit c then String c (digits_only s') else digits_only s'
  end.

(** Truthiness of a string value: the empty string is falsy. *)
Definition truthy (s : string) : bool :=
  match s with EmptyString => false | _ => true end.

(** Truthiness of a possibly [undefined]/[null] string. *)
Definition truthy_opt (o : option string) : bool :=
  match o with Some s => truthy s | None => false end.

(** [a || b] on possibly undefined strings: the first truthy operand,
    else the last operand. *)
Definition or_else (a b : option string) : option string :=
  if truthy_opt a then a else b.

(** [a || "literal"] *)
Definition or_default (a : option string) (d : string) : string :=
  match a with
  | Some s => if truthy s then s else d
  | None => d
  end.

(** String interpolation of a possibly undefined number. *)
Definition show_number (o : option Z) : string :=
  match o with Some z => pretty z | None => "undefined" end.

End JsString.
Import JsString.

(** ** The credential directory

    [authPath] is either missing, a regular file, or a directory whose
    entries are regular files or sub-directories.  [parentWritable] says
    whether the directory holding [authPath] lets the process create or
    remove [authPath] itself. *)
Inductive entry := RegularFile | SubDirectory.

Inductive node :=
| Absent
| PlainFile
| Directory (entries : gmap string entry).

Record disk := Disk { authNode : node; parentWritable : bool }.

(** ** Effects that leave the process *)
Inductive task := ConnectToWhatsApp | SettleOpen.

Inductive effect :=
| FsReaddir
| FsUnlink (name : string)
| FsRm
| FsMkdir
| SetTimeout (t : task) (ms : Z)
| AxiosGet (url : string)
| AxiosPost (bearer model prompt userMessage : string)
| SendMessage (jid text : string)
| RequestPairingCode (phone : string)
| Logout
| ConnectAttempt.

#[global] Instance task_eq_dec : EqDecision task.
Proof. solve_decision. Defined.

#[global] Instance effect_eq_dec : EqDecision effect.
Proof. solve_decision. Defined.

(** ** Module-level variables *)
Record socket := Socket { user_id : option string }.

Record errorInfo := ErrorInfo { message : string; code : option Z }.

Record AiSettings := MkAi { key : string; model : string; prompt : string }.

Record state := State {
  sock : option socket;
  qrCode : option string;
  pairingCode : option string;
  isConnected : bool;
  bridgeStatus : string;
  fullErrorInfo : option errorInfo;
  apiKey : string;
  adminUrl : string;
  aiSettings : AiSettings;
  authDisk : disk;
  trace : list effect
}.

Definition set_sock v (s : state) :=
  State v (qrCode s) (pairingCode s) (isConnected s) (bridgeStatus s)
        (fullErrorInfo s) (apiKey s) (adminUrl s) (aiSettings s) (authDisk s) (trace s).
Definition set_qrCode v (s : state) :=
  State (sock s) v (pairingCode s) (isConnected s) (bridgeStatus s)
        (fullErrorInfo s) (apiKey s) (adminUrl s) (aiSettings s) (authDisk s) (trace s).
Definition set_pairingCode v (s : state) :=
  State (sock s) (qrCode s) v (isConnected s) (bridgeStatus s)
        (fullErrorInfo s) (apiKey s) (adminUrl s) (aiSettings s) (authDisk s) (trace s).
Definition set_isConnected v (s : state) :=
  State (sock s) (qrCode s) (pairingCode s) v (bridgeStatus s)
        (fullErrorInfo s) (apiKey s) (adminUrl s) (aiSettings s) (authDisk s) (trace s).
Definition set_bridgeStatus v (s : state) :=
  State (sock s) (qrCode s) (pairingCode s) (isConnected s) v
        (fullErrorInfo s) (apiKey s) (adminUrl s) (aiSettings s) (authDisk s) (trace s).
Definition set_fullErrorInfo v (s : state) :=
  State (sock s) (qrCode s) (pairingCode s) (isConnected s) (bridgeStatus s)
        v (apiKey s) (adminUrl s) (aiSettings s) (authDisk s) (trace s).
Definition set_apiKey v (s : state) :=
  State (sock s) (qrCode s) (pairingCode s) (isConnected s) (bridgeStatus s)
        (fullErrorInfo s) v (adminUrl s) (aiSettings s) (authDisk s) (trace s).
Definition set_adminUrl v (s : state) :=
  State (sock s) (qrCode s) (pairingCode s) (isConnected s) (bridgeStatus s)
        (fullErrorInfo s) (apiKey s) v (aiSettings s) (authDisk s) (trace s).
Definition set_aiSettings v (s : state) :=
  State (sock s) (qrCode s) (pairingCode s) (isConnected s) (bridgeStatus s)
        (fullErrorInfo s) (apiKey s) (adminUrl s) v (authDisk s) (trace s).
Definition set_authDisk v (s : state) :=
  State (sock s) (qrCode s) (pairingCode s) (isConnected s) (bridgeStatus s)
        (fullErrorInfo s) (apiKey s) (adminUrl s) (aiSettings s) v (trace s).
Definition set_trace v (s : state) :=
  State (sock s) (qrCode s) (pairingCode s) (isConnected s) (bridgeStatus s)
        (fullErrorInfo s) (apiKey s) (adminUrl s) (aiSettings s) (authDisk s) v.

(** ** State-and-exception monad

    A computation returns a value or throws an error message; either way the
    state it reached is kept, as in JavaScript (no roll-back on [throw]). *)
Inductive result (A : Type) :=
| Ok (a : A)
| Throw (msg : string).
Arguments Ok {A} a.
Arguments Throw {A} msg.

Definition M (A : Type) : Type := state -> result A * state.

Definition ret {A} (a : A) : M A := fun s => (Ok a, s).

Definition throw {A} (msg : string) : M A := fun s => (Throw msg, s).

Definition bind {A B} (m : M A) (k : A -> M B) : M B :=
  fun s =>
    match m s with
    | (Ok a, s') => k a s'
    | (Throw e, s') => (Throw e, s')
    end.

(** [try { m } catch (e) { h e }] *)
Definition try_catch {A} (m : M A) (h : string -> M A) : M A :=
  fun s =>
    match m s with
    | (Ok a, s') => (Ok a, s')
    | (Throw e, s') => h e s'
    end.

Definition get {A} (f : state -> A) : M A := fun s => (Ok (f s), s).

Definition modify (f : state -> state) : M unit := fun s => (Ok tt, f s).

Definition emit (e : effect) : M unit :=
  modify (fun s => set_trace (trace s ++ [e]) s).

Notation "x <- m ;; k" := (bind m (fun x => k))
  (at level 90, m at next level, right associativity).
Notation "m ;;; k" := (bind m (fun _ => k))
  (at level 90, right associativity).

(** [for (const x of xs) body x] *)
Fixpoint for_each {A} (xs : list A) (body : A -> M unit) : M unit :=
  match xs with
  | [] => ret tt
  | x :: xs' => body x ;;; for_each xs' body
  end.

Definition when (b : bool) (m : M unit) : M unit := if b then m else ret tt.

(** The state a computation ends in, and the value it returns or throws. *)
Definition exec {A} (m : M A) (s : state) : state := snd (m s).
Definition value {A} (m : M A) (s : state) : result A := fst (m s).

(** ** Node's [fs] calls on [authPath] *)
Module Fs.

Definition existsSync : M bool :=
  get (fun s => match authNode (authDisk s) with Absent => false | _ => true end).

Definition readdirSync : M (list string) :=
  emit FsReaddir ;;;
  n <- get (fun s => authNode (authDisk s)) ;;
  match n with
  | Directory es => ret (map_to_list es).*1
  | PlainFile => throw "ENOTDIR: not a directory, scandir"
  | Absent => throw "ENOENT: no such file or directory, scandir"
  end.

(** [fs.unlinkSync(path.join(authPath, name))]: removes a regular file and
    throws on a sub-directory or a missing name. *)
Definition unlinkSync (name : string) : M unit :=
  emit (FsUnlink name) ;;;
  d <- get authDisk ;;
  match authNode d with
  | Directory es =>
      match es !! name with
      | Some RegularFile =>
          modify (set_authDisk (Disk (Directory (delete name es)) (parentWritable d)))
      | Some SubDirectory => throw "EISDIR: illegal operation on a directory, unlink"
      | None => throw "ENOENT: no such file or directory, unlink"
      end
  | PlainFile => throw "ENOTDIR: not a directory, unlink"
  | Absent => throw "ENOENT: no such file or directory, unlink"
  end.

(** [fs.rmSync(authPath, { recursive: true, force: true })]: a missing path
    is not an error; removal needs a writable parent. *)
Definition rmSync : M unit :=
  emit FsRm ;;;
  d <- get authDisk ;;
  match authNode d with
  | Absent => ret tt
  | _ =>
      if parentWritable d
      then modify (set_authDisk (Disk Absent true))
      else throw "EACCES: permission denied, rm"
  end.

(** [fs.mkdirSync(authPath, { recursive: true })]: an existing directory is
    not an error. *)
Definition mkdirSync : M unit :=
  emit FsMkdir ;;;
  d <- get authDisk ;;
  match authNode d with
  | Absent =>
      if parentWritable d
      then modify (set_authDisk (Disk (Directory ∅) true))
      else throw "EACCES: permission denied, mkdir"
  | Directory _ => ret tt
  | PlainFile => throw "EEXIST: file already exists, mkdir"
  end.

End Fs.

(** ** Credential store (index.js, ensureAuthFolder and clearAuthFolder) *)
Definition ensureAuthFolder : M unit :=
  ex <- Fs.existsSync ;;
  when (negb ex) (try_catch Fs.mkdirSync (fun _ => ret tt)).

Definition clearAuthFolder : M unit :=
  try_catch
    (ex <- Fs.existsSync ;;
     when ex
       (files <- Fs.readdirSync ;;
        for_each files (fun file =>
          try_catch (Fs.unlinkSync file) (fun _ => ret tt))))
    (fun _ => try_catch Fs.rmSync (fun _ => ret tt)) ;;;
  ensureAuthFolder.

(** ** External collaborators

    The constants and answers the module gets from outside: the process id
    and start time, the [DisconnectReason.loggedOut] constant of the Baileys
    library, the QR encoder, [encodeURIComponent], and what the socket, the
    AI provider and the socket factory answer when called. *)
Record Env := MkEnv {
  PID : Z;
  startupTime : string;
  DisconnectReason_loggedOut : Z;
  toDataURL : string -> string;
  encodeURIComponent : string -> string;
  (** [sock.sendMessage(jid, { text })]: the sent message's [key.id], or
      [undefined], or a rejection. *)
  sendMessage : string -> string -> result (option string);
  requestPairingCode : string -> result string;
  (** The completion text of [axios.post] to the AI provider, given the
      bearer key, the model, the system prompt and the user message. *)
  chatCompletion : string -> string -> string -> string -> result string;
  (** [useMultiFileAuthState] followed by [makeWASocket]. *)
  openSocket : result socket
}.

Definition lift {A} (r : result A) : M A := fun s => (r, s).

(** ** Events and requests *)
Record boom := Boom { statusCode : option Z; err_message : option string }.

Record update := Update {
  connection : option string;
  lastDisconnect_error : option boom;
  qr : option string
}.

Record msgKey := MsgKey {
  remoteJid : option string;
  fromMe : bool;
  senderPn : option string;
  key_participant : option string
}.

Record content := Content {
  conversation : option string;
  extendedTextMessage_text : option string
}.

Record waMessage := WaMessage {
  msg_message : option content;
  msg_key : msgKey;
  msg_participant : option string
}.

Record upsert := Upsert { messages : list waMessage; upsert_type : string }.

Record request := Request {
  query : gmap string string;
  headers : gmap string string
}.

Record snapshot := Snapshot {
  snap_connected : bool;
  snap_qr : option string;
  snap_pairing_code : option string;
  snap_number : option string;
  snap_message : string;
  snap_pid : Z;
  snap_uptime : string;
  snap_debug : option errorInfo
}.

Inductive body :=
| StatusJson (s : snapshot)
| ErrorJson (error : string)
| PairingJson (pcode : string)
| SendJson (target messageId : string)
| ResetJson
| TextBody (text : string).

Record response := Response { status : Z; payload : body }.

Record configData := ConfigData {
  openrouter_key : option string;
  ai_model : option string;
  ai_prompt : option string
}.

Section Bridge.

Variable E : Env.

(** *** External admin client *)
Definition separator (url : string) : string :=
  if includes url "?" then "&" else "?".

(** The request half of [fetchAiSettings]; the answer is handled by
    [fetchAiSettings_response]. *)
Definition fetchAiSettings : M unit :=
  url <- get adminUrl ;;
  if negb (truthy url) then ret tt
  else
    k <- get apiKey ;;
    emit (AxiosGet (url ++ separator url ++ "action=get_config&key=" ++ k)).

Definition fetchAiSettings_response (data : result (option configData)) : M unit :=
  match data with
  | Ok (Some d) =>
      when (truthy_opt (openrouter_key d))
        (modify (set_aiSettings
           (MkAi (or_default (openrouter_key d) "")
                 (or_default (ai_model d) "")
                 (or_default (ai_prompt d) ""))))
  | Ok None => ret tt
  | Throw _ => ret tt
  end.

Definition logToWhmcs (phone msg direction : string) : M unit :=
  url <- get adminUrl ;;
  if negb (truthy url) then ret tt
  else
    k <- get apiKey ;;
    emit (AxiosGet (url ++ separator url ++ "action=log_msg&key=" ++ k
                      ++ "&phone=" ++ phone
                      ++ "&message=" ++ encodeURIComponent E msg
                      ++ "&direction=" ++ direction)).

(** *** AI reply client *)
Definition getAiReply (userMessage : string) : M (option string) :=
  ai <- get aiSettings ;;
  if negb (truthy (key ai)) then ret None
  else
    let m := or_default (Some (model ai)) "google/gemini-2.0-flash-exp:free" in
    let p := or_default (Some (prompt ai)) "You are a helpful assistant." in
    try_catch
      (emit (AxiosPost (key ai) m p userMessage) ;;;
       c <- lift (chatCompletion E (key ai) m p userMessage) ;;
       ret (Some c))
      (fun _ => ret None).

(** *** Session client calls *)
Definition sock_sendMessage (jid text : string) : M (option string) :=
  s <- get sock ;;
  match s with
  | None => throw "Cannot read properties of null (reading 'sendMessage')"
  | Some _ => emit (SendMessage jid text) ;;; lift (sendMessage E jid text)
  end.

Definition sock_requestPairingCode (phone : string) : M string :=
  s <- get sock ;;
  match s with
  | None => throw "Cannot read properties of null (reading 'requestPairingCode')"
  | Some _ => emit (RequestPairingCode phone) ;;; lift (requestPairingCode E phone)
  end.

(** *** Connection lifecycle manager *)

(** [connectToWhatsApp]: its writes to the module variables and the retry
    timer.  The outcome of [useMultiFileAuthState] and [makeWASocket] is read
    from [openSocket]; the files those library calls, and the [saveCreds]
    handler registered at line 258, read and write under [auth_info] are not
    part of the model. *)
Definition connectToWhatsApp : M unit :=
  emit ConnectAttempt ;;;
  try_catch
    (modify (set_bridgeStatus "Initializing Baileys...") ;;;
     s <- lift (openSocket E) ;;
     modify (set_sock (Some s)) ;;;
     modify (set_bridgeStatus "Socket created, waiting for QR/Connection..."))
    (fun msg =>
       modify (set_fullErrorInfo (Some (ErrorInfo msg None))) ;;;
       modify (set_bridgeStatus ("Init Error: " ++ msg)) ;;;
       emit (SetTimeout ConnectToWhatsApp 10000)).

(** The test of the close branch:
    [statusCode === 401 || reason.includes("conflict") ||
     reason.includes("device_removed")]. *)
Definition is_auth_error (statusCode : option Z) (reason : string) : bool :=
  bool_decide (statusCode = Some 401)
  || includes reason "conflict"
  || includes reason "device_removed".

(** [const statusCode = err?.output?.statusCode;] *)
Definition close_code (u : update) : option Z :=
  lastDisconnect_error u ≫= statusCode.

(** [const reason = err?.message || "";] *)
Definition close_reason (u : update) : string :=
  or_default (lastDisconnect_error u ≫= err_message) "".

(** [sock.ev.on("connection.update", ...)] *)
Definition on_connection_update (u : update) : M unit :=
  match qr u with
  | Some q =>
      when (truthy q)
        (modify (set_qrCode (Some (toDataURL E q))) ;;;
         modify (set_bridgeStatus "QR Code Generated - SCAN or Use Pairing Code!"))
  | None => ret tt
  end ;;;
  if bool_decide (connection u = Some "close") then
    modify (set_isConnected false) ;;;
    let statusCode := close_code u in
    let reason := close_reason u in
    modify (set_fullErrorInfo (Some (ErrorInfo reason statusCode))) ;;;
    if is_auth_error statusCode reason then
      modify (set_bridgeStatus "Auth Session Error. Resetting in 10s...") ;;;
      clearAuthFolder ;;;
      emit (SetTimeout ConnectToWhatsApp 10000)
    else
      let shouldReconnect :=
        negb (bool_decide (statusCode = Some (DisconnectReason_loggedOut E))) in
      modify (set_bridgeStatus
                ("Disconnected (" ++ show_number statusCode ++ "). Reconnecting...")) ;;;
      when shouldReconnect (emit (SetTimeout ConnectToWhatsApp 5000))
  else if bool_decide (connection u = Some "open") then
    modify (set_bridgeStatus "Synchronizing session... Please wait 5 seconds.") ;;;
    emit (SetTimeout SettleOpen 5000)
  else ret tt.

(** The rest of the open branch, run when its 5 second delay is over. *)
Definition settleOpen : M unit :=
  modify (set_isConnected true) ;;;
  modify (set_qrCode None) ;;;
  modify (set_pairingCode None) ;;;
  modify (set_fullErrorInfo None) ;;;
  modify (set_bridgeStatus "Connected!") ;;;
  fetchAiSettings.

Definition run_task (t : task) : M unit :=
  match t with
  | ConnectToWhatsApp => connectToWhatsApp
  | SettleOpen => settleOpen
  end.

(** *** Message bridge dispatcher *)

(** [const pn = msg.key.senderPn || msg.key.participant || msg.participant;] *)
Definition accompanying_pn (msg : waMessage) : option string :=
  or_else (or_else (senderPn (msg_key msg)) (key_participant (msg_key msg)))
          (msg_participant msg).

(** Lines 229-238 of the handler: the phone number a message is logged
    under. *)
Definition resolve_phone (msg : waMessage) (sender : string) : string :=
  let phone := split_head "@" sender in
  if includes sender "@lid" then
    match accompanying_pn msg with
    | Some p =>
        if truthy p && includes p "@s.whatsapp.net" then split_head "@" p else phone
    | None => phone
    end
  else phone.

(** [sock.ev.on("messages.upsert", ...)] *)
Definition on_messages_upsert (b : upsert) : M unit :=
  if negb (bool_decide (upsert_type b = "notify")) then ret tt
  else
    match messages b with
    | [] => throw "Cannot read properties of undefined (reading 'message')"
    | msg :: _ =>
        match msg_message msg with
        | None => ret tt
        | Some c =>
            if fromMe (msg_key msg) then ret tt
            else
              match or_else (conversation c) (extendedTextMessage_text c) with
              | None => ret tt
              | Some text =>
                  if negb (truthy text) then ret tt
                  else
                    match remoteJid (msg_key msg) with
                    | None => throw "Cannot read properties of undefined (reading 'split')"
                    | Some sender =>
                        let phone := resolve_phone msg sender in
                        logToWhmcs phone text "in" ;;;
                        ai <- get aiSettings ;;
                        when (truthy (key ai))
                          (reply <- getAiReply text ;;
                           match reply with
                           | Some r =>
                               when (truthy r)
                                 (sock_sendMessage sender r ;;;
                                  logToWhmcs phone r "out")
                           | None => ret tt
                           end)
                    end
              end
        end
    end.

(** *** Control API *)
Definition own_number (s : state) : option string :=
  match sock s with
  | Some so =>
      match user_id so with
      | Some i => if truthy i then Some (split_head ":" i) else None
      | None => None
      end
  | None => None
  end.

Definition status_snapshot (s : state) : snapshot :=
  Snapshot (isConnected s) (qrCode s) (pairingCode s) (own_number s)
           (bridgeStatus s) (PID E) (startupTime E) (fullErrorInfo s).

Definition default_text : string := "WHMCS Bridge Test Message".

Definition handle_status (req : request) : M response :=
  k <- get apiKey ;;
  match query req !! "key" with
  | Some q => when (truthy q && negb (bool_decide (q = k))) (modify (set_apiKey q))
  | None => ret tt
  end ;;;
  a <- get adminUrl ;;
  match query req !! "admin_url" with
  | Some u =>
      when (truthy u && negb (bool_decide (a = u)))
        (modify (set_adminUrl u) ;;; fetchAiSettings)
  | None => ret tt
  end ;;;
  a' <- get adminUrl ;;
  match headers req !! "referer" with
  | Some ref =>
      when (negb (truthy a') && truthy ref)
        (when (includes ref "addonmodules.php")
           (modify (set_adminUrl (split_head "&" ref)) ;;; fetchAiSettings))
  | None => ret tt
  end ;;;
  s <- get status_snapshot ;;
  ret (Response 200 (StatusJson s)).

Definition handle_get_pairing_code (req : request) : M response :=
  match query req !! "phone" with
  | Some phone =>
      if negb (truthy phone) then ret (Response 400 (ErrorJson "Phone required"))
      else
        c <- sock_requestPairingCode (digits_only phone) ;;
        modify (set_pairingCode (Some c)) ;;;
        ret (Response 200 (PairingJson c))
  | None => ret (Response 400 (ErrorJson "Phone required"))
  end.

(** [let target = req.query.to;
     if (!target && action === "test_msg") target = sock?.user?.id?.split(":")[0];] *)
Definition send_target (action : string) (req : request) (s : state) : option string :=
  let target := query req !! "to" in
  if negb (truthy_opt target) && bool_decide (action = "test_msg")
  then (sock s ≫= user_id) ≫= (fun i => Some (split_head ":" i))
  else target.

Definition handle_send (action : string) (req : request) : M response :=
  target <- get (send_target action req) ;;
  connected <- get isConnected ;;
  if negb connected then ret (Response 500 (ErrorJson "Bridge not connected"))
  else
    match target with
    | None => ret (Response 400 (ErrorJson "No target number"))
    | Some t =>
        if negb (truthy t) then ret (Response 400 (ErrorJson "No target number"))
        else
          let cleanTarget := digits_only t in
          let jid := cleanTarget ++ "@s.whatsapp.net" in
          let text := or_default (query req !! "message") default_text in
          r <- sock_sendMessage jid text ;;
          match r with
          | None => throw "Cannot read properties of undefined (reading 'key')"
          | Some id =>
              logToWhmcs cleanTarget text "out" ;;;
              ret (Response 200 (SendJson jid id))
          end
    end.

Definition handle_force_reset : M response :=
  modify (set_isConnected false) ;;;
  clearAuthFolder ;;;
  s <- get sock ;;
  match s with
  | Some _ => try_catch (emit Logout) (fun _ => ret tt)
  | None => ret tt
  end ;;;
  ret (Response 200 ResetJson).

(** [app.get("*", ...)] *)
Definition app_get (req : request) : M response :=
  try_catch
    (let action := or_default (query req !! "action") "home" in
     if bool_decide (action = "status") then handle_status req
     else if bool_decide (action = "get_pairing_code") then handle_get_pairing_code req
     else if bool_decide (action = "send") || bool_decide (action = "test_msg")
          then handle_send action req
     else if bool_decide (action = "force_reset") then handle_force_reset
     else
       bs <- get bridgeStatus ;;
       ret (Response 200
              (TextBody ("Bridge running (PID " ++ pretty (PID E) ++ "). Status: " ++ bs))))
    (fun msg => ret (Response 500 (ErrorJson msg))).

End Bridge.

(** ** Specification functions for the credential store *)

(** What one pass of the per-item loop does to one name. *)
Definition unlink_entry (name : string) (es : gmap string entry) : gmap string entry :=
  match es !! name with
  | Some RegularFile => delete name es
  | _ => es
  end.

Definition is_subdir (kv : string * entry) : Prop := kv.2 = SubDirectory.

#[global] Instance is_subdir_dec kv : Decision (is_subdir kv).
Proof. unfold is_subdir. destruct kv as [? []]; simpl; [right|left]; congruence. Defined.

(** The directory [clearAuthFolder] leaves behind. *)
Definition cleared (d : disk) : disk :=
  match authNode d with
  | Directory es => Disk (Directory (filter is_subdir es)) (parentWritable d)
  | _ => if parentWritable d then Disk (Directory ∅) true else d
  end.

(** The [fs] calls [clearAuthFolder] makes. *)
Definition clear_calls (d : disk) : list effect :=
  match authNode d with
  | Directory es => FsReaddir :: map FsUnlink (map_to_list es).*1
  | PlainFile => [FsReaddir; FsRm] ++ (if parentWritable d then [FsMkdir] else [])
  | Absent => [FsMkdir]
  end.

Definition after_clear (s : state) : state :=
  set_authDisk (cleared (authDisk s)) (set_trace (trace s ++ clear_calls (authDisk s)) s).

(** The QR part of the handler, which runs before the close branch: it touches
    the QR code and the status message only. *)
Definition after_qr (E : Env) (u : update) (s : state) : state :=
  match qr u with
  | Some q =>
      if truthy q
      then set_bridgeStatus "QR Code Generated - SCAN or Use Pairing Code!"
             (set_qrCode (Some (toDataURL E q)) s)
      else s
  | None => s
  end.

(** The request [logToWhmcs] sends from state [s]: none when no admin URL is
    linked. *)
Definition log_request (E : Env) (s : state) (phone msg direction : string) : list effect :=
  if truthy (adminUrl s)
  then [AxiosGet (adminUrl s ++ separator (adminUrl s) ++ "action=log_msg&key=" ++ apiKey s
                    ++ "&phone=" ++ phone
                    ++ "&message=" ++ encodeURIComponent E msg
                    ++ "&direction=" ++ direction)]
  else [].

(** The request [getAiReply] sends from state [s] for an inbound text: none
    when no provider key is configured. *)
Definition ai_request (s : state) (text : string) : list effect :=
  if truthy (key (aiSettings s))
  then [AxiosPost (key (aiSettings s))
          (or_default (Some (model (aiSettings s))) "google/gemini-2.0-flash-exp:free")
          (or_default (Some (prompt (aiSettings s))) "You are a helpful assistant.")
          text]
  else [].

(** The first message of a batch is one the handler processes: the batch is a
    live delivery, the message has a payload with text, is not the bridge's
    own, and names its sender. *)
Definition processed (b : upsert) (m : waMessage) (sender text : string) : Prop :=
  upsert_type b = "notify"
  /\ head (messages b) = Some m
  /\ fromMe (msg_key m) = false
  /\ (exists c, msg_message m = Some c
               /\ or_else (conversation c) (extendedTextMessage_text c) = Some text)
  /\ truthy text = true
  /\ remoteJid (msg_key m) = Some sender.

(** A computation that only ever adds to the trace. *)
Definition appends {A} (m : M A) : Prop :=
  forall s, exists added, trace (snd (m s)) = (trace s ++ added)%list.

(** ** Concrete inputs used by the examples below *)
Module Examples.

(** The collaborators of a healthy run.  [DisconnectReason.loggedOut] is 401
    in the Baileys library's [DisconnectReason] enumeration. *)
Definition baileys : Env :=
  MkEnv 4242 "2025-01-01T00:00:00.000Z" 401
        (fun q => "data:image/png;base64," ++ q)
        (fun m => m)
        (fun _ _ => Ok (Some "3EB0C767D26A1B8F0A01"))
        (fun _ => Ok "ABCD1234")
        (fun _ _ _ _ => Ok "Hello from the assistant")
        (Ok (Socket None)).

(** The same collaborators, with a socket whose send is rejected. *)
Definition failing_send : Env :=
  MkEnv 4242 "2025-01-01T00:00:00.000Z" 401
        (fun q => "data:image/png;base64," ++ q)
        (fun m => m)
        (fun _ _ => Throw "Connection Closed")
        (fun _ => Ok "ABCD1234")
        (fun _ _ _ _ => Ok "Hello from the assistant")
        (Ok (Socket None)).

Definition creds_dir : gmap string entry :=
  {[ "creds.json" := RegularFile; "pre-key-1.json" := RegularFile ]}.

(** The module's state after start-up, with a saved session on disk. *)
Definition fresh : state :=
  State None None None false "Starting..." None "your_secret_key" ""
        (MkAi "" "" "") (Disk (Directory creds_dir) true) [].

(** A connected bridge that was never linked to the admin system. *)
Definition connected : state :=
  State (Some (Socket (Some "15551234567:12@s.whatsapp.net")))
        None None true "Connected!" None "your_secret_key" ""
        (MkAi "" "" "") (Disk (Directory creds_dir) true) [].

(** A connected bridge linked to the admin system. *)
Definition linked : state :=
  set_adminUrl "https://x.test/addonmodules.php?module=wa" connected.

Definition close_with (c : option Z) (reason : string) : update :=
  Update (Some "close") (Some (Boom c (Some reason))) None.

Definition get_request (q : list (string * string)) : request :=
  Request (list_to_map q) ∅.

Definition text_from (sender text : string) : waMessage :=
  WaMessage (Some (Content (Some text) None)) (MsgKey (Some sender) false None None) None.

Definition own_echo (sender text : string) : waMessage :=
  WaMessage (Some (Content (Some text) None)) (MsgKey (Some sender) true None None) None.

(** Collaborators whose socket set-up throws. *)
Definition failing_setup : Env :=
  MkEnv 4242 "2025-01-01T00:00:00.000Z" 401
        (fun q => "data:image/png;base64," ++ q)
        (fun m => m)
        (fun _ _ => Ok (Some "3EB0C767D26A1B8F0A01"))
        (fun _ => Ok "ABCD1234")
        (fun _ _ _ _ => Ok "Hello from the assistant")
        (Throw "ENOSPC: no space left on device").

(** A connected, linked bridge with AI settings loaded. *)
Definition with_ai : state :=
  set_aiSettings (MkAi "sk-or-123" "" "Be brief.") linked.

End Examples.

(** ** Further specification functions *)

(** Every character of [s] is a decimal digit. *)
Fixpoint all_digits (s : string) : bool :=
  match s with
  | EmptyString => true
  | String c s' => is_digit c && all_digits s'
  end.

(** A computation whose end state is always related to its start state
    by [R]. *)
Definition respects {A} (R : state -> state -> Prop) (m : M A) : Prop :=
  forall s, R s (snd (m s)).

(** The module variable [f] keeps its value. *)
Definition keeps {B} (f : state -> B) : state -> state -> Prop :=
  fun s s' => f s' = f s.

(** The connected flag is not raised. *)
Definition not_raised : state -> state -> Prop :=
  fun s s' => isConnected s' = true -> isConnected s = true.

(** The action a request dispatches on: [req.query.action || "home"]. *)
Definition action_of (req : request) : string :=
  or_default (query req !! "action") "home".

(** ** Process lock file (index.js, lines 17-30)

    [bridge.lock] is missing or holds a text.  At start-up the module writes
    its process id over whatever is there; the [exit] handler removes the file
    if it still holds this process's id, and swallows the read error when the
    file is missing. *)
Module LockFile.

Definition startup (pid : Z) (lock : option string) : option string :=
  Some (pretty pid).

Definition on_exit (pid : Z) (lock : option string) : option string :=
  match lock with
  | Some held => if bool_decide (held = pretty pid) then None else Some held
  | None => None
  end.

End LockFile.

(** [n] connection attempts in a row, each started by the timer of the one
    before. *)
Fixpoint attempts (E : Env) (n : nat) (s : state) : state :=
  match n with
  | O => s
  | S n' => exec (connectToWhatsApp E) (attempts E n' s)
  end.

(** The writes of a status request, one after the other: [fetched] is what
    [fetchAiSettings] does to the trace. *)
Definition fetched (s : state) : state :=
  if truthy (adminUrl s)
  then set_trace (trace s ++ [AxiosGet (adminUrl s ++ separator (adminUrl s)
                                          ++ "action=get_config&key=" ++ apiKey s)]) s
  else s.

Definition sync_key (req : request) (s : state) : state :=
  match query req !! "key" with
  | Some q => if truthy q && negb (bool_decide (q = apiKey s)) then set_apiKey q s else s
  | None => s
  end.

Definition link_explicit (req : request) (s : state) : state :=
  match query req !! "admin_url" with
  | Some u =>
      if truthy u && negb (bool_decide (adminUrl s = u))
      then fetched (set_adminUrl u s) else s
  | None => s
  end.

Definition link_referer (req : request) (s : state) : state :=
  match headers req !! "referer" with
  | Some ref =>
      if negb (truthy (adminUrl s)) && truthy ref && includes ref "addonmodules.php"
      then fetched (set_adminUrl (split_head "&" ref) s) else s
  | None => s
  end.

Definition after_status (req : request) (s : state) : state :=
  link_referer req (link_explicit req (sync_key req s)).

(** The shape of the route's answers: an error body comes with status 400 or
    500, every other body with status 200. *)
Definition well_formed_response (r : response) : Prop :=
  match payload r with
  | ErrorJson _ => status r = 400 \/ status r = 500
  | _ => status r = 200
  end.

(** A handler all of whose answers have that shape. *)
Definition answers_well (m : M response) : Prop :=
  forall s, match fst (m s) with Ok r => well_formed_response r | Throw _ => True end.

(** [s.endsWith(suffix)], used to say what carrying a domain suffix means. *)
Fixpoint ends_with (s suffix : string) : bool :=
  String.eqb s suffix ||
  match s with
  | EmptyString => false
  | String _ s' => ends_with s' suffix
  end.

(** * Properties *)

(** Unfolding of the monad's combinators. *)
Ltac run_monad :=
  cbv [bind ret throw try_catch get modify emit when lift exec value
       set_sock set_qrCode set_pairingCode set_isConnected set_bridgeStatus
       set_fullErrorInfo set_apiKey set_adminUrl set_aiSettings set_authDisk
       set_trace sock qrCode pairingCode isConnected bridgeStatus fullErrorInfo
       apiKey adminUrl aiSettings authDisk trace authNode parentWritable
       negb fst snd].

Lemma bind_ok {A B} (m : M A) (k : A -> M B) s a s' :
  m s = (Ok a, s') -> bind m k s = k a s'.
Proof. intros H. unfold bind. by rewrite H. Qed.

Lemma bind_throw {A B} (m : M A) (k : A -> M B) s e s' :
  m s = (Throw e, s') -> bind m k s = (Throw e, s').
Proof. intros H. unfold bind. by rewrite H. Qed.

Lemma try_ok {A} (m : M A) h s a s' :
  m s = (Ok a, s') -> try_catch m h s = (Ok a, s').
Proof. intros H. unfold try_catch. by rewrite H. Qed.

Lemma try_throw {A} (m : M A) h s e s' :
  m s = (Throw e, s') -> try_catch m h s = h e s'.
Proof. intros H. unfold try_catch. by rewrite H. Qed.

(** ** Credential store *)
Section CredentialStore.

Lemma unlink_step name s es w :
  authDisk s = Disk (Directory es) w ->
  try_catch (Fs.unlinkSync name) (fun _ => ret tt) s
  = (Ok tt, set_authDisk (Disk (Directory (unlink_entry name es)) w)
              (set_trace (trace s ++ [FsUnlink name]) s)).
Proof.
  intros Hd. destruct s as [so q p c b f k a ai d t]. simpl in Hd. subst d.
  unfold try_catch, Fs.unlinkSync, bind, emit, modify, get, unlink_entry. simpl.
  destruct (es !! name) as [[]|]; reflexivity.
Qed.

Lemma unlink_loop names : forall s es w,
  authDisk s = Disk (Directory es) w ->
  for_each names (fun file => try_catch (Fs.unlinkSync file) (fun _ => ret tt)) s
  = (Ok tt, set_authDisk (Disk (Directory (foldl (fun m n => unlink_entry n m) es names)) w)
              (set_trace (trace s ++ map FsUnlink names) s)).
Proof.
  induction names as [|n names IH]; intros s es w Hd.
  - destruct s as [so q p c b f k a ai d t]. simpl in Hd. subst d.
    simpl. unfold ret, set_authDisk, set_trace. simpl. by rewrite app_nil_r.
  - simpl. unfold bind at 1. rewrite (unlink_step n s es w Hd).
    erewrite IH by reflexivity.
    destruct s as [so q p c b f k a ai d t]. simpl.
    unfold set_authDisk, set_trace. simpl. by rewrite <- app_assoc.
Qed.

Lemma lookup_unlink_entry n es k :
  unlink_entry n es !! k
  = if decide (n = k)
    then match es !! k with Some RegularFile => None | o => o end
    else es !! k.
Proof.
  unfold unlink_entry. case_decide as Hnk.
  - subst k. destruct (es !! n) as [[]|] eqn:Hn; rewrite ?lookup_delete_eq, ?Hn; done.
  - destruct (es !! n) as [[]|]; rewrite ?lookup_delete_ne; done.
Qed.

Lemma lookup_unlink_all names : forall es k,
  foldl (fun m n => unlink_entry n m) es names !! k
  = if decide (k ∈ names)
    then match es !! k with Some RegularFile => None | o => o end
    else es !! k.
Proof.
  induction names as [|n names IH]; intros es k.
  - by rewrite decide_False by apply not_elem_of_nil.
  - cbn [foldl]. rewrite IH, lookup_unlink_entry.
    destruct (decide (k ∈ names)) as [Hin|Hin];
      destruct (decide (n = k)) as [->|Hne].
    + rewrite decide_True by (by left). by destruct (es !! k) as [[]|].
    + rewrite decide_True by (by right). done.
    + rewrite decide_True by (by left). done.
    + rewrite decide_False; [done|].
      intros [->|?]%elem_of_cons; congruence.
Qed.

Lemma unlink_all_filter (es : gmap string entry) :
  foldl (fun m n => unlink_entry n m) es (map_to_list es).*1 = filter is_subdir es.
Proof.
  apply map_eq. intros k. rewrite lookup_unlink_all. symmetry.
  destruct (es !! k) as [e|] eqn:Hk.
  - rewrite decide_True.
    2:{ apply list_elem_of_fmap. exists (k, e). split; [done|].
        by apply elem_of_map_to_list. }
    destruct e.
    + apply map_lookup_filter_None. right. intros x Hx.
      rewrite Hk in Hx. injection Hx as <-. unfold is_subdir. simpl. congruence.
    + apply map_lookup_filter_Some. by split.
  - assert (filter is_subdir es !! k = None) as ->
      by (apply map_lookup_filter_None; by left).
    by case_decide.
Qed.

(** [clearAuthFolder] never throws, and its whole effect is [after_clear]. *)
Lemma clearAuthFolder_run s : clearAuthFolder s = (Ok tt, after_clear s).
Proof.
  destruct s as [so q p c b f k a ai [n w] t].
  unfold clearAuthFolder, after_clear, cleared, clear_calls.
  destruct n as [| |es].
  - cbv [ensureAuthFolder Fs.existsSync Fs.mkdirSync]. run_monad.
    destruct w; reflexivity.
  - cbv [ensureAuthFolder Fs.existsSync Fs.readdirSync Fs.rmSync Fs.mkdirSync].
    run_monad. destruct w; simpl; rewrite <- ?app_assoc; reflexivity.
  - erewrite bind_ok.
    2:{ apply try_ok. erewrite bind_ok by reflexivity. cbv [when]. cbn [authNode authDisk].
        erewrite bind_ok by (cbv [Fs.readdirSync]; run_monad; reflexivity).
        erewrite unlink_loop by reflexivity. reflexivity. }
    cbv [ensureAuthFolder Fs.existsSync]. run_monad. simpl.
    by rewrite unlink_all_filter, <- app_assoc.
Qed.

End CredentialStore.

Lemma cleared_regular_files (es : gmap string entry) :
  (forall k e, es !! k = Some e -> e = RegularFile) ->
  filter is_subdir es = ∅.
Proof.
  intros Hreg. apply map_eq. intros k. rewrite lookup_empty.
  apply map_lookup_filter_None. right. intros e He.
  apply Hreg in He. subst e. unfold is_subdir. simpl. congruence.
Qed.

Lemma cleared_no_regular_file d es' k :
  authNode (cleared d) = Directory es' -> es' !! k <> Some RegularFile.
Proof.
  unfold cleared. destruct d as [[| |es] w]; cbn.
  - destruct w; cbn; [|done]. intros [= <-]. by rewrite lookup_empty.
  - destruct w; cbn; [|done]. intros [= <-]. by rewrite lookup_empty.
  - intros [= <-] Hk. apply map_lookup_filter_Some in Hk as [_ Hsub].
    unfold is_subdir in Hsub. cbn in Hsub. congruence.
Qed.

Lemma clear_calls_are_fs_calls d :
  Forall (fun e => match e with
                   | FsReaddir | FsUnlink _ | FsRm | FsMkdir => True
                   | _ => False
                   end) (clear_calls d).
Proof.
  unfold clear_calls. destruct (authNode d) as [| |es].
  - repeat constructor.
  - destruct (parentWritable d); repeat constructor.
  - constructor; [done|]. apply Forall_forall. intros e He.
    apply list_elem_of_fmap in He as [n [-> _]]. done.
Qed.

(** *** C7 *)

(** C7, as stated, fails: the location holds a regular file and a
    sub-directory.  Unlinking the sub-directory throws, the throw is swallowed
    by the inner [catch], no wholesale removal ([fs.rmSync]) follows, and the
    location is left non-empty. *)
Lemma clearAuthFolder_keeps_failed_item :
  value (Fs.unlinkSync "keys")
        (set_authDisk (Disk (Directory {[ "creds.json" := RegularFile;
                                          "keys" := SubDirectory ]}) true)
                      Examples.fresh)
  = Throw "EISDIR: illegal operation on a directory, unlink"
  /\ value clearAuthFolder
        (set_authDisk (Disk (Directory {[ "creds.json" := RegularFile;
                                          "keys" := SubDirectory ]}) true)
                      Examples.fresh)
     = Ok tt
  /\ bool_decide (FsUnlink "keys" ∈ trace (exec clearAuthFolder
        (set_authDisk (Disk (Directory {[ "creds.json" := RegularFile;
                                          "keys" := SubDirectory ]}) true)
                      Examples.fresh))) = true
  /\ bool_decide (FsRm ∈ trace (exec clearAuthFolder
        (set_authDisk (Disk (Directory {[ "creds.json" := RegularFile;
                                          "keys" := SubDirectory ]}) true)
                      Examples.fresh))) = false
  /\ authNode (authDisk (exec clearAuthFolder
        (set_authDisk (Disk (Directory {[ "creds.json" := RegularFile;
                                          "keys" := SubDirectory ]}) true)
                      Examples.fresh)))
     = Directory {[ "keys" := SubDirectory ]}.
Proof. repeat split; vm_compute; reflexivity. Qed.

(** C7, amended: [clearAuthFolder] never throws.  On a location that is a
    directory it tries to unlink every entry; an entry whose removal fails is
    skipped and stays, the regular files are removed, and no wholesale removal
    is made.  Wholesale removal is the fallback when the location exists but
    cannot be listed.  In every case [ensureAuthFolder] runs last; with a
    writable parent the location ends as a directory, which is empty exactly
    when no entry resisted removal; and in every case no regular file is left
    in the location. *)
Theorem clearAuthFolder_resilient (s : state) :
  value clearAuthFolder s = Ok tt
  /\ (forall es, authNode (authDisk s) = Directory es ->
        authNode (authDisk (exec clearAuthFolder s)) = Directory (filter is_subdir es)
        /\ trace (exec clearAuthFolder s)
           = (trace s ++ FsReaddir :: map FsUnlink (map_to_list es).*1)%list
        /\ (filter is_subdir es = ∅ <-> forall k e, es !! k = Some e -> e = RegularFile))
  /\ (authNode (authDisk s) = PlainFile ->
        exists rest,
          trace (exec clearAuthFolder s) = (trace s ++ FsReaddir :: FsRm :: rest)%list)
  /\ (parentWritable (authDisk s) = true ->
        authNode (authDisk s) = PlainFile \/ authNode (authDisk s) = Absent ->
        authNode (authDisk (exec clearAuthFolder s)) = Directory ∅)
  /\ (parentWritable (authDisk s) = false ->
        authNode (authDisk s) = PlainFile \/ authNode (authDisk s) = Absent ->
        authNode (authDisk (exec clearAuthFolder s)) = authNode (authDisk s))
  /\ (forall es' k, authNode (authDisk (exec clearAuthFolder s)) = Directory es' ->
        es' !! k <> Some RegularFile)
  /\ sock (exec clearAuthFolder s) = sock s
  /\ isConnected (exec clearAuthFolder s) = isConnected s
  /\ adminUrl (exec clearAuthFolder s) = adminUrl s.
Proof.
  unfold exec, value. rewrite clearAuthFolder_run. cbn [fst snd].
  split; [done|].
  assert (forall es' k, authNode (authDisk (after_clear s)) = Directory es' ->
                        es' !! k <> Some RegularFile) as Hnoreg.
  { intros es' k. destruct s. apply cleared_no_regular_file. }
  revert Hnoreg.
  destruct s as [so q p c b f k a ai [n w] t].
  unfold after_clear, cleared, clear_calls. cbn. intros Hnoreg.
  split; [|split; [|split; [|split; [|split; [exact Hnoreg|]]]]].
  - intros es ->. cbn. split; [done|]. split; [done|]. split.
    + intros Hempty k' e He. destruct e; [done|].
      assert (filter is_subdir es !! k' = Some SubDirectory) as Hin
        by (by apply map_lookup_filter_Some).
      rewrite Hempty, lookup_empty in Hin. done.
    + apply cleared_regular_files.
  - intros ->. cbn. eexists. reflexivity.
  - intros -> [->| ->]; reflexivity.
  - intros -> [->| ->]; reflexivity.
  - destruct n; [destruct w|destruct w|]; done.
Qed.

(** ** Connection lifecycle manager *)

Lemma is_auth_error_true c r :
  is_auth_error c r = true
  <-> c = Some 401 \/ includes r "conflict" = true \/ includes r "device_removed" = true.
Proof.
  unfold is_auth_error. rewrite !orb_true_iff, bool_decide_eq_true. tauto.
Qed.

Lemma is_auth_error_false c r :
  is_auth_error c r = false
  <-> c <> Some 401 /\ includes r "conflict" = false /\ includes r "device_removed" = false.
Proof.
  unfold is_auth_error. rewrite !orb_false_iff, bool_decide_eq_false. tauto.
Qed.

Lemma after_qr_frame E u s :
  authDisk (after_qr E u s) = authDisk s /\ trace (after_qr E u s) = trace s.
Proof. unfold after_qr. destruct (qr u) as [q|]; [destruct (truthy q)|]; done. Qed.

(** The close branch on an authentication error. *)
Lemma close_auth_error_run E u s :
  connection u = Some "close" ->
  is_auth_error (close_code u) (close_reason u) = true ->
  on_connection_update E u s
  = (Ok tt,
     set_trace (trace (after_clear (after_qr E u s)) ++ [SetTimeout ConnectToWhatsApp 10000])
       (after_clear
          (set_bridgeStatus "Auth Session Error. Resetting in 10s..."
             (set_fullErrorInfo (Some (ErrorInfo (close_reason u) (close_code u)))
                (set_isConnected false (after_qr E u s)))))).
Proof.
  intros Hc Ha. unfold on_connection_update, after_qr. rewrite Hc, Ha.
  rewrite (bool_decide_eq_true_2 _ eq_refl).
  destruct (qr u) as [q|]; [destruct (truthy q)|];
    (erewrite bind_ok by (run_monad; reflexivity));
    (erewrite bind_ok by (run_monad; reflexivity));
    (erewrite bind_ok by (run_monad; reflexivity));
    (erewrite bind_ok by (run_monad; reflexivity));
    (erewrite bind_ok by apply clearAuthFolder_run);
    destruct s as [so q0 p c b f k a ai d t]; reflexivity.
Qed.

(** The close branch on any other error. *)
Lemma close_other_run E u s :
  connection u = Some "close" ->
  is_auth_error (close_code u) (close_reason u) = false ->
  on_connection_update E u s
  = (Ok tt,
     (if bool_decide (close_code u = Some (DisconnectReason_loggedOut E))
      then fun x => x
      else fun x => set_trace (trace x ++ [SetTimeout ConnectToWhatsApp 5000]) x)
       (set_bridgeStatus ("Disconnected (" ++ show_number (close_code u) ++ "). Reconnecting...")
          (set_fullErrorInfo (Some (ErrorInfo (close_reason u) (close_code u)))
             (set_isConnected false (after_qr E u s))))).
Proof.
  intros Hc Ha. unfold on_connection_update, after_qr. rewrite Hc, Ha.
  rewrite (bool_decide_eq_true_2 _ eq_refl).
  destruct (bool_decide (close_code u = Some (DisconnectReason_loggedOut E)));
    (destruct (qr u) as [q|]; [destruct (truthy q)|]);
    destruct s as [so q0 p c b f k a ai d t]; reflexivity.
Qed.

(** C1: a close event with status code 401, or with "conflict" or
    "device_removed" in its message, runs the credential-store clear operation
    and then schedules [connectToWhatsApp] after 10000 ms.  The handler's trace
    is the trace of the clear operation (file-system calls only, so no
    connection attempt) followed by the timer; the store is the one the clear
    operation leaves: no regular file is left in it, and it is empty when it
    held regular files only. *)
Theorem auth_error_close_clears_then_reconnects (E : Env) (u : update) (s : state) :
  connection u = Some "close" ->
  (close_code u = Some 401
   \/ includes (close_reason u) "conflict" = true
   \/ includes (close_reason u) "device_removed" = true) ->
  authDisk (exec (on_connection_update E u) s) = authDisk (exec clearAuthFolder s)
  /\ trace (exec (on_connection_update E u) s)
     = (trace (exec clearAuthFolder s) ++ [SetTimeout ConnectToWhatsApp 10000])%list
  /\ trace (exec (on_connection_update E u) s)
     = (trace s ++ clear_calls (authDisk s) ++ [SetTimeout ConnectToWhatsApp 10000])%list
  /\ (ConnectAttempt ∉ clear_calls (authDisk s))
  /\ run_task E ConnectToWhatsApp = connectToWhatsApp E
  /\ bridgeStatus (exec (on_connection_update E u) s)
     = "Auth Session Error. Resetting in 10s..."
  /\ (forall es' k,
        authNode (authDisk (exec (on_connection_update E u) s)) = Directory es' ->
        es' !! k <> Some RegularFile)
  /\ (forall es, authNode (authDisk s) = Directory es ->
        (forall k e, es !! k = Some e -> e = RegularFile) ->
        authNode (authDisk (exec (on_connection_update E u) s)) = Directory ∅).
Proof.
  intros Hc Ha. apply is_auth_error_true in Ha.
  unfold exec. rewrite (close_auth_error_run E u s Hc Ha), clearAuthFolder_run.
  destruct (after_qr_frame E u s) as [Hd Ht].
  cbn [snd]. unfold after_clear. cbn. rewrite Hd, Ht.
  repeat split; try done; try apply cleared_no_regular_file.
  - by rewrite <- app_assoc.
  - intros Hin. pose proof (clear_calls_are_fs_calls (authDisk s)) as Hfs.
    rewrite Forall_forall in Hfs. by apply Hfs in Hin.
  - intros es Hes Hreg. unfold cleared. rewrite Hes.
    by rewrite cleared_regular_files.
Qed.

Lemma auth_error_close_witness :
  trace (exec (on_connection_update Examples.baileys
                 (Examples.close_with (Some 401) "Connection Failure")) Examples.fresh)
  = (trace (exec clearAuthFolder Examples.fresh)
       ++ [SetTimeout ConnectToWhatsApp 10000])%list.
Proof.
  apply (auth_error_close_clears_then_reconnects Examples.baileys
           (Examples.close_with (Some 401) "Connection Failure") Examples.fresh).
  - reflexivity.
  - left. reflexivity.
Defined.

(** C2, as stated, fails: [DisconnectReason.loggedOut] is 401, the code the
    handler tests first.  A close event carrying the logged-out code is handled
    as an authentication error: the credentials are cleared and a reconnect is
    scheduled after 10000 ms. *)
Lemma logged_out_close_schedules_reconnect :
  close_code (Examples.close_with (Some 401) "Connection Failure")
  = Some (DisconnectReason_loggedOut Examples.baileys)
  /\ trace (exec (on_connection_update Examples.baileys
                    (Examples.close_with (Some 401) "Connection Failure")) Examples.fresh)
     = [FsReaddir; FsUnlink "creds.json"; FsUnlink "pre-key-1.json";
        SetTimeout ConnectToWhatsApp 10000]
  /\ authNode (authDisk (exec (on_connection_update Examples.baileys
                    (Examples.close_with (Some 401) "Connection Failure")) Examples.fresh))
     = Directory ∅.
Proof. repeat split; vm_compute; reflexivity. Qed.

(** C2, amended: for a close event whose status code equals
    [DisconnectReason.loggedOut], what happens depends on the authentication
    error test, which comes first.  If the event passes that test (its code is
    401, or its message has a conflict or device-removed marker), a reconnect
    is scheduled after 10000 ms; the library's logged-out code being 401, this
    is the case of every logged-out close.  Only if it does not pass the test
    is nothing scheduled: the handler then adds no effect and leaves the
    credentials alone. *)
Theorem logged_out_close (E : Env) (u : update) (s : state) :
  connection u = Some "close" ->
  close_code u = Some (DisconnectReason_loggedOut E) ->
  (is_auth_error (close_code u) (close_reason u) = true ->
     trace (exec (on_connection_update E u) s)
     = (trace s ++ clear_calls (authDisk s) ++ [SetTimeout ConnectToWhatsApp 10000])%list)
  /\ (DisconnectReason_loggedOut E = 401 ->
        is_auth_error (close_code u) (close_reason u) = true)
  /\ (is_auth_error (close_code u) (close_reason u) = false ->
        trace (exec (on_connection_update E u) s) = trace s
        /\ authDisk (exec (on_connection_update E u) s) = authDisk s).
Proof.
  intros Hc Hl. destruct (after_qr_frame E u s) as [Hd Ht]. split; [|split].
  - intros Ha. unfold exec. rewrite (close_auth_error_run E u s Hc Ha).
    cbn [snd]. unfold after_clear. cbn. by rewrite Hd, Ht, <- app_assoc.
  - intros H401. apply is_auth_error_true. left. by rewrite Hl, H401.
  - intros Ha. unfold exec. rewrite (close_other_run E u s Hc Ha).
    rewrite (bool_decide_eq_true_2 _ Hl). cbn. done.
Qed.

Lemma logged_out_close_witness :
  trace (exec (on_connection_update Examples.baileys
                 (Examples.close_with (Some 401) "Connection Failure")) Examples.fresh)
  = (trace Examples.fresh ++ clear_calls (authDisk Examples.fresh)
       ++ [SetTimeout ConnectToWhatsApp 10000])%list.
Proof.
  apply (logged_out_close Examples.baileys
           (Examples.close_with (Some 401) "Connection Failure") Examples.fresh);
    reflexivity.
Defined.

(** C3: a close event that is neither an authentication error (401, conflict,
    device_removed) nor carries the logged-out code schedules
    [connectToWhatsApp] after 5000 ms, makes no file-system call and leaves the
    credential directory as it was. *)
Theorem transient_close_reconnects (E : Env) (u : update) (s : state) :
  connection u = Some "close" ->
  close_code u <> Some 401 ->
  includes (close_reason u) "conflict" = false ->
  includes (close_reason u) "device_removed" = false ->
  close_code u <> Some (DisconnectReason_loggedOut E) ->
  trace (exec (on_connection_update E u) s)
  = (trace s ++ [SetTimeout ConnectToWhatsApp 5000])%list
  /\ authDisk (exec (on_connection_update E u) s) = authDisk s.
Proof.
  intros Hc H401 Hconf Hdev Hl.
  assert (is_auth_error (close_code u) (close_reason u) = false) as Ha
    by (by apply is_auth_error_false).
  destruct (after_qr_frame E u s) as [Hd Ht].
  unfold exec. rewrite (close_other_run E u s Hc Ha).
  rewrite (bool_decide_eq_false_2 _ Hl). cbn. by rewrite Hd, Ht.
Qed.

Lemma transient_close_witness :
  trace (exec (on_connection_update Examples.baileys
                 (Examples.close_with (Some 428) "Connection Closed")) Examples.fresh)
  = (trace Examples.fresh ++ [SetTimeout ConnectToWhatsApp 5000])%list
  /\ authDisk (exec (on_connection_update Examples.baileys
                 (Examples.close_with (Some 428) "Connection Closed")) Examples.fresh)
     = authDisk Examples.fresh.
Proof.
  apply (transient_close_reconnects Examples.baileys
           (Examples.close_with (Some 428) "Connection Closed") Examples.fresh);
    try reflexivity; vm_compute; congruence.
Defined.

(** ** The trace is append-only *)
Section Appends.

Lemma appends_ret {A} (a : A) : appends (ret a).
Proof. intros s. exists []. cbn. by rewrite app_nil_r. Qed.

Lemma appends_throw {A} e : appends (@throw A e).
Proof. intros s. exists []. cbn. by rewrite app_nil_r. Qed.

Lemma appends_lift {A} (r : result A) : appends (lift r).
Proof. intros s. exists []. cbn. by rewrite app_nil_r. Qed.

Lemma appends_get {A} (f : state -> A) : appends (get f).
Proof. intros s. exists []. cbn. by rewrite app_nil_r. Qed.

Lemma appends_emit e : appends (emit e).
Proof. intros s. exists [e]. by destruct s. Qed.

Lemma appends_modify f : (forall s, trace (f s) = trace s) -> appends (modify f).
Proof. intros Hf s. exists []. cbn. by rewrite Hf, app_nil_r. Qed.

Lemma appends_bind {A B} (m : M A) (k : A -> M B) :
  appends m -> (forall a, appends (k a)) -> appends (bind m k).
Proof.
  intros Hm Hk s. unfold bind. destruct (Hm s) as [t1 H1].
  destruct (m s) as [[a|e] s1]; cbn in *.
  - destruct (Hk a s1) as [t2 H2]. exists (t1 ++ t2)%list.
    by rewrite H2, H1, app_assoc.
  - by exists t1.
Qed.

Lemma appends_try_catch {A} (m : M A) h :
  appends m -> (forall e, appends (h e)) -> appends (try_catch m h).
Proof.
  intros Hm Hh s. unfold try_catch. destruct (Hm s) as [t1 H1].
  destruct (m s) as [[a|e] s1]; cbn in *.
  - by exists t1.
  - destruct (Hh e s1) as [t2 H2]. exists (t1 ++ t2)%list.
    by rewrite H2, H1, app_assoc.
Qed.

Lemma appends_when b m : appends m -> appends (when b m).
Proof. destruct b; [done|]. intros _. apply appends_ret. Qed.

Lemma appends_clearAuthFolder : appends clearAuthFolder.
Proof.
  intros s. rewrite clearAuthFolder_run. exists (clear_calls (authDisk s)).
  by destruct s.
Qed.

End Appends.

Create HintDb appends.
#[export] Hint Resolve appends_ret appends_throw appends_lift appends_get appends_emit
  appends_clearAuthFolder : appends.

(** Structural proof that a computation built from the combinators appends. *)
Ltac solve_appends :=
  repeat first
    [ solve [auto with appends]
    | apply appends_bind
    | apply appends_try_catch
    | apply appends_when
    | apply appends_modify; intros []; reflexivity
    | match goal with
      | |- forall _, _ => intro
      | |- appends (match ?x with _ => _ end) => destruct x
      end ].

Lemma appends_fetchAiSettings : appends fetchAiSettings.
Proof. unfold fetchAiSettings. solve_appends. Qed.

Lemma appends_logToWhmcs E p m d : appends (logToWhmcs E p m d).
Proof. unfold logToWhmcs. solve_appends. Qed.

Lemma appends_getAiReply E m : appends (getAiReply E m).
Proof. unfold getAiReply. solve_appends. Qed.

Lemma appends_sock_sendMessage E j t : appends (sock_sendMessage E j t).
Proof. unfold sock_sendMessage. solve_appends. Qed.

Lemma appends_sock_requestPairingCode E p : appends (sock_requestPairingCode E p).
Proof. unfold sock_requestPairingCode. solve_appends. Qed.

#[export] Hint Resolve appends_fetchAiSettings appends_logToWhmcs appends_getAiReply
  appends_sock_sendMessage appends_sock_requestPairingCode : appends.

Lemma appends_connectToWhatsApp E : appends (connectToWhatsApp E).
Proof. unfold connectToWhatsApp. solve_appends. Qed.

Lemma appends_on_connection_update E u : appends (on_connection_update E u).
Proof. unfold on_connection_update. solve_appends. Qed.

Lemma appends_on_messages_upsert E b : appends (on_messages_upsert E b).
Proof. unfold on_messages_upsert. solve_appends. Qed.

Lemma appends_app_get E req : appends (app_get E req).
Proof.
  unfold app_get, handle_status, handle_get_pairing_code, handle_send,
    handle_force_reset.
  solve_appends.
Qed.

#[export] Hint Resolve appends_fetchAiSettings appends_logToWhmcs appends_getAiReply
  appends_sock_sendMessage appends_sock_requestPairingCode : appends.

(** ** External admin client and AI client *)

Lemma logToWhmcs_run E p m d s :
  logToWhmcs E p m d s = (Ok tt, set_trace (trace s ++ log_request E s p m d) s).
Proof.
  unfold logToWhmcs, log_request. run_monad.
  destruct s as [so q0 p0 c b f k a ai dk t]. cbn.
  destruct (truthy a); cbn; [done|]. by rewrite app_nil_r.
Qed.

Lemma getAiReply_run E text s :
  truthy (key (aiSettings s)) = true ->
  exists r, getAiReply E text s = (Ok r, set_trace (trace s ++ ai_request s text) s).
Proof.
  intros Hk. unfold getAiReply, ai_request. run_monad.
  destruct s as [so q0 p0 c b f k a ai dk t]. cbn in *. rewrite Hk. cbn.
  destruct (chatCompletion E _ _ _ _); eexists; reflexivity.
Qed.

(** ** Message bridge dispatcher *)

(** What the handler does with a message it processes: the inbound log
    request first, then the AI request, then whatever the reply leads to. *)
Lemma upsert_processed_run E b m sender text s :
  processed b m sender text ->
  exists added,
    trace (exec (on_messages_upsert E b) s)
    = (trace s ++ log_request E s (resolve_phone m sender) text "in"
         ++ ai_request s text ++ added)%list.
Proof.
  intros (Hty & Hhd & Hme & (c & Hc & Htext) & Htr & Hjid).
  unfold exec, on_messages_upsert. rewrite Hty.
  rewrite (bool_decide_eq_true_2 _ eq_refl). cbn [negb].
  destruct (messages b) as [|m' rest]; [done|]. cbn in Hhd. injection Hhd as ->.
  rewrite Hc, Hme, Htext, Htr, Hjid. cbn [negb].
  erewrite bind_ok by apply logToWhmcs_run.
  erewrite bind_ok by reflexivity.
  unfold ai_request.
  assert (aiSettings (set_trace (trace s ++ log_request E s (resolve_phone m sender) text "in") s)
          = aiSettings s) as -> by (by destruct s).
  destruct (truthy (key (aiSettings s))) eqn:Hk; cbn [when].
  - set (s1 := set_trace _ s).
    destruct (getAiReply_run E text s1) as [r Hr]; [by destruct s|].
    erewrite bind_ok by apply Hr.
    match goal with
    | |- context [snd (?K ?s2)] =>
        assert (appends K) as Happ by solve_appends;
        destruct (Happ s2) as [added Hadded]; rewrite Hadded
    end.
    exists added. subst s1. destruct s. cbn. unfold ai_request. cbn in *. rewrite Hk.
    by rewrite <- !app_assoc.
  - exists []. destruct s. cbn. by rewrite !app_nil_r.
Qed.

(** C4, as stated, fails: the handler looks at [messages[0]] only.  In a live
    batch of two text messages from other people the second is never logged;
    and when the first message is the bridge's own echo, nothing in the batch
    is processed, though the second message alone would be. *)
Lemma upsert_drops_later_messages :
  trace (exec (on_messages_upsert Examples.baileys
                 (Upsert [Examples.text_from "15550001111@s.whatsapp.net" "first";
                          Examples.text_from "15550002222@s.whatsapp.net" "second"]
                         "notify")) Examples.linked)
  = [AxiosGet ("https://x.test/addonmodules.php?module=wa&action=log_msg&key=your_secret_key"
               ++ "&phone=15550001111&message=first&direction=in")]
  /\ trace (exec (on_messages_upsert Examples.baileys
                 (Upsert [Examples.own_echo "15550001111@s.whatsapp.net" "mine";
                          Examples.text_from "15550002222@s.whatsapp.net" "second"]
                         "notify")) Examples.linked)
     = []
  /\ trace (exec (on_messages_upsert Examples.baileys
                 (Upsert [Examples.text_from "15550002222@s.whatsapp.net" "second"]
                         "notify")) Examples.linked)
     = [AxiosGet ("https://x.test/addonmodules.php?module=wa&action=log_msg&key=your_secret_key"
                  ++ "&phone=15550002222&message=second&direction=in")].
Proof. repeat split; vm_compute; reflexivity. Qed.

(** C4, amended: a batch that is not tagged "notify" is ignored entirely.  Of a
    batch tagged "notify" only the first message is looked at: the handler
    does the same as on the batch cut down to that message.  When the first
    message carries text, is not self-originated and names its sender, it is
    processed: the inbound log request is issued (when an admin URL is linked)
    and the text is passed to the AI client (when a provider key is set). *)
Theorem upsert_handles_first_message_only (E : Env) (b : upsert) (s : state) :
  (upsert_type b <> "notify" -> on_messages_upsert E b s = (Ok tt, s))
  /\ (forall m rest,
        messages b = m :: rest ->
        on_messages_upsert E b s = on_messages_upsert E (Upsert [m] (upsert_type b)) s)
  /\ (forall m sender text,
        processed b m sender text ->
        exists added,
          trace (exec (on_messages_upsert E b) s)
          = (trace s ++ log_request E s (resolve_phone m sender) text "in"
               ++ ai_request s text ++ added)%list).
Proof.
  split; [|split].
  - intros Hty. unfold on_messages_upsert.
    by rewrite (bool_decide_eq_false_2 _ Hty).
  - intros m rest Hm. unfold on_messages_upsert. by rewrite Hm.
  - intros m sender text Hp. by apply upsert_processed_run.
Qed.

(** ** Identity resolution *)

Lemma prefix_refl s : String.prefix s s = true.
Proof. induction s as [|c s IH]; [done|]. cbn. by destruct (ascii_dec c c). Qed.

Lemma append_nil_l s : "" ++ s = s.
Proof. reflexivity. Qed.

Lemma append_cons c a b : String c a ++ b = String c (a ++ b).
Proof. reflexivity. Qed.

Lemma includes_suffix a b : includes (a ++ b) b = true.
Proof.
  induction a as [|c a IH].
  - rewrite append_nil_l. destruct b as [|c b]; [done|]. cbn [includes].
    by rewrite prefix_refl.
  - rewrite append_cons. cbn [includes]. by rewrite IH, orb_true_r.
Qed.

Lemma includes_nonempty p sub : includes p sub = true -> truthy sub = true -> truthy p = true.
Proof. destruct p; [|done]. by destruct sub. Qed.

Lemma includes_char_cons c a sep :
  includes (String c a) (String sep EmptyString) = false ->
  Ascii.eqb c sep = false /\ includes a (String sep EmptyString) = false.
Proof.
  cbn [includes String.prefix]. intros H. apply orb_false_iff in H as [H1 H2].
  split; [|done]. destruct (Ascii.eqb_spec c sep) as [->|Hne]; [|done].
  destruct (ascii_dec sep sep); [|done]. by destruct a.
Qed.

Lemma split_head_local sep local rest :
  includes local (String sep EmptyString) = false ->
  split_head sep (local ++ String sep rest) = local.
Proof.
  induction local as [|c a IH]; intros H.
  - rewrite append_nil_l. cbn. by rewrite Ascii.eqb_refl.
  - rewrite append_cons. cbn [split_head].
    apply includes_char_cons in H as [-> H]. by rewrite IH.
Qed.

(** C5, as stated, fails in two ways.  Only one accompanying field is ever
    consulted, the first non-empty of senderPn, key.participant and
    participant: here key.participant is itself a linked identifier, so the
    phone-suffixed participant field is never looked at and the message is
    logged under the anonymized identifier's local part.  And the field is
    tested with [includes], not for a suffix: a field that merely contains
    "@s.whatsapp.net" is accepted. *)
Lemma lid_later_field_not_consulted :
  msg_participant
    (WaMessage (Some (Content (Some "hello") None))
               (MsgKey (Some "98765432101234@lid") false None (Some "777@lid"))
               (Some "15550001111@s.whatsapp.net"))
  = Some "15550001111@s.whatsapp.net"
  /\ ends_with "15550001111@s.whatsapp.net" "@s.whatsapp.net" = true
  /\ resolve_phone
       (WaMessage (Some (Content (Some "hello") None))
                  (MsgKey (Some "98765432101234@lid") false None (Some "777@lid"))
                  (Some "15550001111@s.whatsapp.net"))
       "98765432101234@lid"
     = "98765432101234"
  /\ trace (exec (on_messages_upsert Examples.baileys
                    (Upsert [WaMessage (Some (Content (Some "hello") None))
                               (MsgKey (Some "98765432101234@lid") false None
                                       (Some "777@lid"))
                               (Some "15550001111@s.whatsapp.net")] "notify"))
                 Examples.linked)
     = [AxiosGet ("https://x.test/addonmodules.php?module=wa&action=log_msg&key=your_secret_key"
                  ++ "&phone=98765432101234&message=hello&direction=in")]
  /\ ends_with "evil@s.whatsapp.net.attacker" "@s.whatsapp.net" = false
  /\ resolve_phone
       (WaMessage (Some (Content (Some "hello") None))
                  (MsgKey (Some "98765432101234@lid") false
                          (Some "evil@s.whatsapp.net.attacker") None) None)
       "98765432101234@lid"
     = "evil".
Proof. repeat split; vm_compute; reflexivity. Qed.

(** C5, amended: for a processed message whose sender identifier contains
    "@lid", the handler logs under [resolve_phone], and one accompanying field
    decides it: key.senderPn if it is non-empty, else key.participant if it is
    non-empty, else participant.  If that field contains "@s.whatsapp.net",
    the phone number is the field's text before its first "@" (for a field
    [local@s.whatsapp.net] that is [local]); otherwise, also when a later
    field carries the suffix or when there is no field at all, it is the local
    part of the anonymized identifier, before its "@". *)
Theorem lid_phone_resolution (E : Env) (b : upsert) (m : waMessage)
    (sender text : string) (s : state) :
  processed b m sender text ->
  includes sender "@lid" = true ->
  (exists added,
     trace (exec (on_messages_upsert E b) s)
     = (trace s ++ log_request E s (resolve_phone m sender) text "in" ++ added)%list)
  /\ (forall p, senderPn (msg_key m) = Some p -> truthy p = true ->
        resolve_phone m sender
        = if includes p "@s.whatsapp.net" then split_head "@" p
          else split_head "@" sender)
  /\ (truthy_opt (senderPn (msg_key m)) = false ->
      forall p, key_participant (msg_key m) = Some p -> truthy p = true ->
        resolve_phone m sender
        = if includes p "@s.whatsapp.net" then split_head "@" p
          else split_head "@" sender)
  /\ (truthy_opt (senderPn (msg_key m)) = false ->
      truthy_opt (key_participant (msg_key m)) = false ->
      forall p, msg_participant m = Some p ->
        resolve_phone m sender
        = if includes p "@s.whatsapp.net" then split_head "@" p
          else split_head "@" sender)
  /\ (truthy_opt (senderPn (msg_key m)) = false ->
      truthy_opt (key_participant (msg_key m)) = false ->
      msg_participant m = None ->
      resolve_phone m sender = split_head "@" sender)
  /\ (forall local, includes local "@" = false ->
        includes (local ++ "@s.whatsapp.net") "@s.whatsapp.net" = true
        /\ split_head "@" (local ++ "@s.whatsapp.net") = local).
Proof.
  intros Hp Hlid.
  assert (forall p, accompanying_pn m = Some p ->
            resolve_phone m sender
            = if includes p "@s.whatsapp.net" then split_head "@" p
              else split_head "@" sender) as Hsel.
  { intros p Hpn. unfold resolve_phone. rewrite Hlid, Hpn.
    destruct (includes p "@s.whatsapp.net") eqn:Hinc.
    - by rewrite (includes_nonempty p _ Hinc).
    - by rewrite andb_false_r. }
  split; [|split; [|split; [|split; [|split]]]].
  - destruct (upsert_processed_run E b m sender text s Hp) as [added Ha].
    eexists. rewrite Ha. reflexivity.
  - intros p H1 Ht. apply Hsel. unfold accompanying_pn, or_else.
    rewrite H1. destruct p; [discriminate Ht|reflexivity].
  - intros Hn1 p H2 Ht. apply Hsel. unfold accompanying_pn, or_else.
    rewrite Hn1, H2. destruct p; [discriminate Ht|reflexivity].
  - intros Hn1 Hn2 p H3. apply Hsel. unfold accompanying_pn, or_else.
    by rewrite Hn1, Hn2, H3.
  - intros Hn1 Hn2 H3. unfold resolve_phone, accompanying_pn, or_else.
    by rewrite Hlid, Hn1, Hn2, H3.
  - intros local Hloc. split; [apply includes_suffix|].
    by apply (split_head_local "@" local "s.whatsapp.net").
Qed.

Lemma lid_phone_resolution_witness :
  resolve_phone
    (WaMessage (Some (Content (Some "hello") None))
               (MsgKey (Some "98765432101234@lid") false
                       (Some "15550001111@s.whatsapp.net") None) None)
    "98765432101234@lid"
  = "15550001111".
Proof.
  apply (proj1 (proj2 (lid_phone_resolution Examples.baileys
           (Upsert [WaMessage (Some (Content (Some "hello") None))
                      (MsgKey (Some "98765432101234@lid") false
                              (Some "15550001111@s.whatsapp.net") None) None] "notify")
           (WaMessage (Some (Content (Some "hello") None))
                      (MsgKey (Some "98765432101234@lid") false
                              (Some "15550001111@s.whatsapp.net") None) None)
           "98765432101234@lid" "hello" Examples.linked
           (conj eq_refl (conj eq_refl (conj eq_refl
              (conj (ex_intro _ (Content (Some "hello") None) (conj eq_refl eq_refl))
                 (conj eq_refl eq_refl)))))
           eq_refl))
           "15550001111@s.whatsapp.net" eq_refl eq_refl).
Defined.

(** ** Control API *)

Lemma app_get_status E req s :
  query req !! "action" = Some "status" ->
  app_get E req s
  = try_catch (handle_status E req) (fun msg => ret (Response 500 (ErrorJson msg))) s.
Proof. intros H. unfold app_get. by rewrite H. Qed.

Lemma app_get_send E req action s :
  query req !! "action" = Some action ->
  action = "send" \/ action = "test_msg" ->
  app_get E req s
  = try_catch (handle_send E action req) (fun msg => ret (Response 500 (ErrorJson msg))) s.
Proof. intros H [->| ->]; unfold app_get; by rewrite H. Qed.

Lemma app_get_force_reset E req s :
  query req !! "action" = Some "force_reset" ->
  app_get E req s
  = try_catch (handle_force_reset) (fun msg => ret (Response 500 (ErrorJson msg))) s.
Proof. intros H. unfold app_get. by rewrite H. Qed.

(** A status request always answers with the snapshot of the state it ends
    in, and changes nothing but the API key, the admin URL and the trace. *)
Lemma handle_status_frame E req s :
  exists s',
    handle_status E req s = (Ok (Response 200 (StatusJson (status_snapshot E s'))), s')
    /\ sock s' = sock s /\ qrCode s' = qrCode s /\ pairingCode s' = pairingCode s
    /\ isConnected s' = isConnected s /\ bridgeStatus s' = bridgeStatus s
    /\ fullErrorInfo s' = fullErrorInfo s /\ aiSettings s' = aiSettings s
    /\ authDisk s' = authDisk s.
Proof.
  destruct s as [so q0 p0 c b f k a ai dk t].
  unfold handle_status, fetchAiSettings. run_monad. cbn.
  destruct (query req !! "key") as [qk|]; [destruct (truthy qk), (bool_decide (qk = k))|];
    cbn;
    (destruct (query req !! "admin_url") as [u|];
       [destruct (truthy u) eqn:Hu, (bool_decide (a = u)); cbn; rewrite ?Hu; cbn|]);
    (destruct (truthy a) eqn:Ha; cbn);
    (destruct (headers req !! "referer") as [ref|];
       [destruct (truthy ref), (includes ref "addonmodules.php"); cbn;
        try destruct (truthy (split_head "&" ref)); cbn|]);
    eexists; (split; [reflexivity|]); cbn; repeat split.
Qed.

Lemma truthy_false s : truthy s = false <-> s = "".
Proof. by destruct s. Qed.

Lemma truthy_true s : truthy s = true <-> s <> "".
Proof. by destruct s. Qed.

(** C8: on a status request, when no admin URL is linked and the request
    supplies a non-empty admin_url and key, both are adopted and exactly one
    AI-settings fetch goes out, to the new URL with the new key.  A supplied
    admin_url always wins over the referrer header; the referrer changes the
    admin URL only when no admin_url is supplied, none is set, and the
    referrer contains "addonmodules.php", and in that case it does. *)
Theorem status_links_admin (E : Env) (req : request) (s : state) :
  query req !! "action" = Some "status" ->
  (forall u k,
     adminUrl s = "" ->
     query req !! "admin_url" = Some u -> truthy u = true ->
     query req !! "key" = Some k -> truthy k = true ->
     adminUrl (exec (app_get E req) s) = u
     /\ apiKey (exec (app_get E req) s) = k
     /\ trace (exec (app_get E req) s)
        = (trace s ++ [AxiosGet (u ++ separator u ++ "action=get_config&key=" ++ k)])%list)
  /\ (forall u,
        query req !! "admin_url" = Some u -> truthy u = true ->
        adminUrl (exec (app_get E req) s) = u)
  /\ (truthy_opt (query req !! "admin_url") = false ->
      adminUrl (exec (app_get E req) s) <> adminUrl s ->
      adminUrl s = ""
      /\ exists ref, headers req !! "referer" = Some ref
                     /\ includes ref "addonmodules.php" = true
                     /\ adminUrl (exec (app_get E req) s) = split_head "&" ref)
  /\ (truthy_opt (query req !! "admin_url") = false ->
      adminUrl s = "" ->
      forall ref, headers req !! "referer" = Some ref ->
                  includes ref "addonmodules.php" = true ->
                  adminUrl (exec (app_get E req) s) = split_head "&" ref).
Proof.
  intros Hact. unfold exec. rewrite (app_get_status E req s Hact).
  destruct s as [so q0 p0 c b f k0 a ai dk t].
  unfold handle_status, fetchAiSettings. run_monad. cbn.
  split; [|split; [|split]].
  - intros u k -> Hu Htu Hk Htk. rewrite Hu, Hk, Htu, Htk. cbn.
    assert (bool_decide ("" = u) = false) as Hne
      by (apply bool_decide_eq_false_2; intros <-; done).
    destruct (bool_decide (k = k0)) eqn:Hkk; cbn; rewrite Hne; cbn; rewrite Htu; cbn;
      [apply bool_decide_eq_true_1 in Hkk; subst k0|];
      destruct (headers req !! "referer") as [ref|]; cbn; done.
  - intros u Hu Htu. rewrite Hu, Htu. cbn.
    destruct (query req !! "key") as [qk|];
      [destruct (truthy qk), (bool_decide (qk = k0))|]; cbn;
      (destruct (bool_decide (a = u)) eqn:Hau; cbn;
       [apply bool_decide_eq_true_1 in Hau; subst a|]; rewrite Htu; cbn);
      destruct (headers req !! "referer") as [ref|]; cbn; done.
  - intros Hno Hchg.
    revert Hchg.
    destruct (query req !! "key") as [qk|];
      [destruct (truthy qk), (bool_decide (qk = k0))|]; cbn;
      (destruct (query req !! "admin_url") as [u|];
         [cbn in Hno; rewrite Hno; cbn|]);
      (destruct (truthy a) eqn:Ha; cbn;
         [|apply truthy_false in Ha; subst a]);
      (destruct (headers req !! "referer") as [ref|]; cbn;
         [destruct (truthy ref), (includes ref "addonmodules.php") eqn:Hinc; cbn;
          try destruct (truthy (split_head "&" ref)); cbn|]);
      intros Hchg; try done; split; try done; exists ref; done.
  - intros Hno -> ref Href Hinc. rewrite Href, Hinc.
    rewrite (includes_nonempty ref _ Hinc eq_refl). cbn.
    destruct (query req !! "key") as [qk|];
      [destruct (truthy qk), (bool_decide (qk = k0))|]; cbn;
      (destruct (query req !! "admin_url") as [u|];
         [cbn in Hno; rewrite Hno; cbn|]);
      try destruct (truthy (split_head "&" ref)); cbn; done.
Qed.

Lemma status_links_admin_witness :
  adminUrl (exec (app_get Examples.baileys
                    (Examples.get_request [("action", "status");
                                           ("admin_url", "https://x.test/addon.php");
                                           ("key", "ABC")])) Examples.fresh)
  = "https://x.test/addon.php"
  /\ apiKey (exec (app_get Examples.baileys
                    (Examples.get_request [("action", "status");
                                           ("admin_url", "https://x.test/addon.php");
                                           ("key", "ABC")])) Examples.fresh)
     = "ABC"
  /\ trace (exec (app_get Examples.baileys
                    (Examples.get_request [("action", "status");
                                           ("admin_url", "https://x.test/addon.php");
                                           ("key", "ABC")])) Examples.fresh)
     = (trace Examples.fresh
          ++ [AxiosGet ("https://x.test/addon.php"
                        ++ separator "https://x.test/addon.php"
                        ++ "action=get_config&key=" ++ "ABC")])%list.
Proof.
  apply (status_links_admin Examples.baileys
           (Examples.get_request [("action", "status");
                                  ("admin_url", "https://x.test/addon.php");
                                  ("key", "ABC")]) Examples.fresh);
    reflexivity.
Defined.

Lemma sock_sendMessage_run E jid text s so :
  sock s = Some so ->
  sock_sendMessage E jid text s
  = (sendMessage E jid text, set_trace (trace s ++ [SendMessage jid text]) s).
Proof.
  intros Hs. destruct s as [so0 q0 p0 c b f k a ai dk t0]. cbn in Hs. subst so0.
  reflexivity.
Qed.

(** What a send or test_msg request does once the connectivity and target
    checks are passed. *)
Lemma handle_send_run E action req s so t :
  isConnected s = true ->
  sock s = Some so ->
  send_target action req s = Some t ->
  truthy t = true ->
  handle_send E action req s
  = match sendMessage E (digits_only t ++ "@s.whatsapp.net")
                      (or_default (query req !! "message") default_text) with
    | Ok (Some id) =>
        (Ok (Response 200 (SendJson (digits_only t ++ "@s.whatsapp.net") id)),
         set_trace
           (trace s
              ++ SendMessage (digits_only t ++ "@s.whatsapp.net")
                             (or_default (query req !! "message") default_text)
              :: log_request E s (digits_only t)
                   (or_default (query req !! "message") default_text) "out") s)
    | Ok None =>
        (Throw "Cannot read properties of undefined (reading 'key')",
         set_trace
           (trace s
              ++ [SendMessage (digits_only t ++ "@s.whatsapp.net")
                              (or_default (query req !! "message") default_text)]) s)
    | Throw e =>
        (Throw e,
         set_trace
           (trace s
              ++ [SendMessage (digits_only t ++ "@s.whatsapp.net")
                              (or_default (query req !! "message") default_text)]) s)
    end.
Proof.
  intros Hc Hs Ht Htt. unfold handle_send.
  erewrite bind_ok by (unfold get; rewrite Ht; reflexivity).
  erewrite bind_ok by (unfold get; rewrite Hc; reflexivity).
  cbn [negb]. rewrite Htt. cbn [negb].
  unfold bind at 1. rewrite (sock_sendMessage_run E _ _ s so Hs).
  destruct (sendMessage E _ _) as [[id|]|e].
  - erewrite bind_ok by apply logToWhmcs_run.
    destruct s as [so0 q0 p0 c b f k a ai dk t0]. cbn.
    unfold log_request. cbn. by rewrite <- app_assoc.
  - reflexivity.
  - reflexivity.
Qed.

(** C6, as stated, fails: the bridge is connected and the target resolves,
    but the session client rejects the send; the exception is caught at the
    route boundary and the response is a server error. *)
Lemma send_can_fail_when_connected :
  isConnected Examples.connected = true
  /\ send_target "send"
       (Examples.get_request [("action", "send"); ("to", "15550001111")])
       Examples.connected
     = Some "15550001111"
  /\ value (app_get Examples.failing_send
              (Examples.get_request [("action", "send"); ("to", "15550001111")]))
           Examples.connected
     = Ok (Response 500 (ErrorJson "Connection Closed")).
Proof. repeat split; vm_compute; reflexivity. Qed.

(** C6, amended: a send or test_msg request answers 500 when the bridge is
    not connected; 400 when it is connected and no target resolves; and, when
    it is connected with a resolvable target, success with the message
    identifier if the session client's send returns a message, and 500 with
    the exception's message if the send throws or returns no message. *)
Theorem send_responses (E : Env) (req : request) (action : string) (s : state) :
  query req !! "action" = Some action ->
  action = "send" \/ action = "test_msg" ->
  (isConnected s = false ->
     app_get E req s = (Ok (Response 500 (ErrorJson "Bridge not connected")), s))
  /\ (isConnected s = true ->
      truthy_opt (send_target action req s) = false ->
      app_get E req s = (Ok (Response 400 (ErrorJson "No target number")), s))
  /\ (forall so t,
        isConnected s = true -> sock s = Some so ->
        send_target action req s = Some t -> truthy t = true ->
        value (app_get E req) s
        = match sendMessage E (digits_only t ++ "@s.whatsapp.net")
                            (or_default (query req !! "message") default_text) with
          | Ok (Some id) =>
              Ok (Response 200 (SendJson (digits_only t ++ "@s.whatsapp.net") id))
          | Ok None =>
              Ok (Response 500
                    (ErrorJson "Cannot read properties of undefined (reading 'key')"))
          | Throw e => Ok (Response 500 (ErrorJson e))
          end).
Proof.
  intros Hact Hsend. rewrite (app_get_send E req action s Hact Hsend).
  split; [|split].
  - intros Hc. unfold handle_send. apply try_ok.
    erewrite bind_ok by reflexivity.
    erewrite bind_ok by (unfold get; rewrite Hc; reflexivity). reflexivity.
  - intros Hc Hno. unfold handle_send. apply try_ok.
    erewrite bind_ok by reflexivity.
    erewrite bind_ok by (unfold get; rewrite Hc; reflexivity). cbn [negb].
    destruct (send_target action req s) as [t|]; [|done].
    cbn in Hno. by rewrite Hno.
  - intros so t Hc Hs Ht Htt. unfold value.
    rewrite (app_get_send E req action s Hact Hsend).
    unfold try_catch. rewrite (handle_send_run E action req s so t Hc Hs Ht Htt).
    by destruct (sendMessage E _ _) as [[id|]|e].
Qed.

Lemma send_responses_witness :
  value (app_get Examples.baileys
           (Examples.get_request [("action", "send"); ("to", "+1 555 000 1111")]))
        Examples.connected
  = Ok (Response 200 (SendJson "15550001111@s.whatsapp.net" "3EB0C767D26A1B8F0A01")).
Proof.
  apply (proj2 (proj2 (send_responses Examples.baileys
           (Examples.get_request [("action", "send"); ("to", "+1 555 000 1111")])
           "send" Examples.connected eq_refl (or_introl eq_refl)))
           (Socket (Some "15551234567:12@s.whatsapp.net")) "+1 555 000 1111");
    reflexivity.
Defined.

(** C10, as stated, fails: a connected bridge that was never linked to the
    admin system gets a test_msg request without a message.  The default text
    is sent, and nothing is forwarded to the admin system: [logToWhmcs]
    returns at once when no admin URL is set. *)
Lemma default_text_not_logged_when_unlinked :
  isConnected Examples.connected = true
  /\ send_target "test_msg" (Examples.get_request [("action", "test_msg")])
       Examples.connected
     = Some "15551234567"
  /\ value (app_get Examples.baileys (Examples.get_request [("action", "test_msg")]))
           Examples.connected
     = Ok (Response 200 (SendJson "15551234567@s.whatsapp.net" "3EB0C767D26A1B8F0A01"))
  /\ trace (exec (app_get Examples.baileys (Examples.get_request [("action", "test_msg")]))
                 Examples.connected)
     = [SendMessage "15551234567@s.whatsapp.net" "WHMCS Bridge Test Message"].
Proof. repeat split; vm_compute; reflexivity. Qed.

(** C10, amended: a send or test_msg request that passes the connectivity and
    target checks and has no message parameter passes the default text
    "WHMCS Bridge Test Message" to the session client's send.  When the send
    returns a message, [logToWhmcs] is called with the same default text and
    direction "out": the log request carrying it goes out if an admin URL is
    linked, and nothing is forwarded otherwise.  When the send fails, nothing
    is logged. *)
Theorem default_text_sent_and_logged (E : Env) (req : request) (action : string)
    (s : state) (so : socket) (t : string) :
  query req !! "action" = Some action ->
  action = "send" \/ action = "test_msg" ->
  isConnected s = true -> sock s = Some so ->
  send_target action req s = Some t -> truthy t = true ->
  query req !! "message" = None ->
  default_text = "WHMCS Bridge Test Message"
  /\ trace (exec (app_get E req) s)
     = (trace s
          ++ SendMessage (digits_only t ++ "@s.whatsapp.net") default_text
          :: match sendMessage E (digits_only t ++ "@s.whatsapp.net") default_text with
             | Ok (Some _) =>
                 if truthy (adminUrl s)
                 then [AxiosGet (adminUrl s ++ separator (adminUrl s)
                                   ++ "action=log_msg&key=" ++ apiKey s
                                   ++ "&phone=" ++ digits_only t
                                   ++ "&message=" ++ encodeURIComponent E default_text
                                   ++ "&direction=" ++ "out")]
                 else []
             | _ => []
             end)%list.
Proof.
  intros Hact Hsend Hc Hs Ht Htt Hmsg. split; [reflexivity|].
  unfold exec. rewrite (app_get_send E req action s Hact Hsend).
  unfold try_catch. rewrite (handle_send_run E action req s so t Hc Hs Ht Htt).
  rewrite Hmsg. cbn [or_default].
  destruct (sendMessage E _ _) as [[id|]|e]; by destruct s.
Qed.

Lemma default_text_witness :
  trace (exec (app_get Examples.baileys (Examples.get_request [("action", "test_msg")]))
              Examples.linked)
  = [SendMessage "15551234567@s.whatsapp.net" "WHMCS Bridge Test Message";
     AxiosGet ("https://x.test/addonmodules.php?module=wa&action=log_msg&key=your_secret_key"
               ++ "&phone=15551234567&message=WHMCS Bridge Test Message&direction=out")].
Proof.
  apply (default_text_sent_and_logged Examples.baileys
           (Examples.get_request [("action", "test_msg")]) "test_msg" Examples.linked
           (Socket (Some "15551234567:12@s.whatsapp.net")) "15551234567");
    solve [reflexivity | right; reflexivity].
Defined.

Lemma handle_force_reset_run s :
  handle_force_reset s
  = (Ok (Response 200 ResetJson),
     set_trace (trace s ++ clear_calls (authDisk s)
                  ++ match sock s with Some _ => [Logout] | None => [] end)
       (set_authDisk (cleared (authDisk s)) (set_isConnected false s))).
Proof.
  unfold handle_force_reset.
  erewrite bind_ok by reflexivity.
  erewrite bind_ok by apply clearAuthFolder_run.
  destruct s as [so q0 p0 c b f k a ai dk t]. unfold after_clear.
  destruct so; run_monad; cbn; by rewrite <- ?app_assoc, ?app_nil_r.
Qed.

(** C9: a force_reset request answers "reset", clears the connected flag and
    clears the persisted credentials: it makes the file-system calls of the
    clear operation (on a credential directory, the listing and one unlink per
    entry), after which no regular file is left in the location and a
    directory of credential files is empty.  The QR code, the pairing code,
    the last-error record, the status message, the admin URL, the API key, the
    AI settings and the socket variable keep their values.  A status request
    that follows at once reports disconnected together with the QR code,
    pairing code, error record and status message from before the reset. *)
Theorem force_reset_frame (E : Env) (req : request) (s : state) :
  query req !! "action" = Some "force_reset" ->
  value (app_get E req) s = Ok (Response 200 ResetJson)
  /\ isConnected (exec (app_get E req) s) = false
  /\ authDisk (exec (app_get E req) s) = authDisk (exec clearAuthFolder s)
  /\ qrCode (exec (app_get E req) s) = qrCode s
  /\ pairingCode (exec (app_get E req) s) = pairingCode s
  /\ fullErrorInfo (exec (app_get E req) s) = fullErrorInfo s
  /\ bridgeStatus (exec (app_get E req) s) = bridgeStatus s
  /\ adminUrl (exec (app_get E req) s) = adminUrl s
  /\ apiKey (exec (app_get E req) s) = apiKey s
  /\ aiSettings (exec (app_get E req) s) = aiSettings s
  /\ sock (exec (app_get E req) s) = sock s
  /\ trace (exec (app_get E req) s)
     = (trace s ++ clear_calls (authDisk s)
          ++ match sock s with Some _ => [Logout] | None => [] end)%list
  /\ (forall es' k,
        authNode (authDisk (exec (app_get E req) s)) = Directory es' ->
        es' !! k <> Some RegularFile)
  /\ (forall es,
        authNode (authDisk s) = Directory es ->
        authNode (authDisk (exec (app_get E req) s)) = Directory (filter is_subdir es)
        /\ trace (exec (app_get E req) s)
           = (trace s ++ FsReaddir :: map FsUnlink (map_to_list es).*1
                ++ match sock s with Some _ => [Logout] | None => [] end)%list
        /\ ((forall k e, es !! k = Some e -> e = RegularFile) ->
            authNode (authDisk (exec (app_get E req) s)) = Directory ∅))
  /\ (forall req2,
        query req2 !! "action" = Some "status" ->
        exists snap,
          value (app_get E req2) (exec (app_get E req) s)
          = Ok (Response 200 (StatusJson snap))
          /\ snap_connected snap = false
          /\ snap_qr snap = qrCode s
          /\ snap_pairing_code snap = pairingCode s
          /\ snap_debug snap = fullErrorInfo s
          /\ snap_message snap = bridgeStatus s).
Proof.
  intros Hact. unfold exec, value. rewrite (app_get_force_reset E req s Hact).
  unfold try_catch. rewrite handle_force_reset_run. cbn [fst snd].
  rewrite clearAuthFolder_run. cbn [snd].
  repeat (split; [by destruct s|]).
  split; [|split].
  - intros es' k. destruct s. apply cleared_no_regular_file.
  - intros es Hes. destruct s as [so q0 p0 c b f k a ai dk t]. cbn in *.
    unfold cleared, clear_calls. rewrite Hes. cbn.
    split; [done|]. split; [done|].
    intros Hreg. by rewrite cleared_regular_files.
  - intros req2 Hst. rewrite (app_get_status E req2 _ Hst). unfold try_catch.
    destruct (handle_status_frame E req2
                (set_trace (trace s ++ clear_calls (authDisk s)
                              ++ match sock s with Some _ => [Logout] | None => [] end)
                   (set_authDisk (cleared (authDisk s)) (set_isConnected false s))))
      as (s' & -> & Hso & Hq & Hp & Hc & Hb & Hf & _).
    eexists. split; [reflexivity|]. unfold status_snapshot. cbn.
    rewrite Hq, Hp, Hc, Hb, Hf. by destruct s.
Qed.

Lemma force_reset_witness :
  value (app_get Examples.baileys (Examples.get_request [("action", "force_reset")]))
        (set_qrCode (Some "data:image/png;base64,2@abc") Examples.connected)
  = Ok (Response 200 ResetJson)
  /\ isConnected (exec (app_get Examples.baileys
                          (Examples.get_request [("action", "force_reset")]))
                       (set_qrCode (Some "data:image/png;base64,2@abc") Examples.connected))
     = false
  /\ authNode (authDisk (exec (app_get Examples.baileys
                          (Examples.get_request [("action", "force_reset")]))
                       (set_qrCode (Some "data:image/png;base64,2@abc") Examples.connected)))
     = Directory ∅
  /\ trace (exec (app_get Examples.baileys
                          (Examples.get_request [("action", "force_reset")]))
                       (set_qrCode (Some "data:image/png;base64,2@abc") Examples.connected))
     = [FsReaddir; FsUnlink "creds.json"; FsUnlink "pre-key-1.json"; Logout].
Proof.
  pose proof (force_reset_frame Examples.baileys
                (Examples.get_request [("action", "force_reset")])
                (set_qrCode (Some "data:image/png;base64,2@abc") Examples.connected)
                eq_refl)
    as (Hv & Hc & _ & _ & _ & _ & _ & _ & _ & _ & _ & _ & _ & Hdir & _).
  destruct (Hdir Examples.creds_dir eq_refl) as (Hd & Ht & _).
  split; [exact Hv|]. split; [exact Hc|]. split.
  - rewrite Hd. vm_compute. reflexivity.
  - rewrite Ht. vm_compute. reflexivity.
Defined.

(** * Further properties of the code *)

(** ** String helpers *)

Lemma prefix_spec a s :
  String.prefix a s = true <-> exists post, s = a ++ post.
Proof.
  revert s. induction a as [|c a IH]; intros s.
  - split; [intros _; by exists s|]. intros _. by destruct s.
  - destruct s as [|c' s]; cbn [String.prefix].
    + split; [done|]. intros [post Hp]. rewrite append_cons in Hp. done.
    + destruct (ascii_dec c c') as [->|Hne].
      * rewrite IH. split; intros [post Hp]; exists post.
        -- by rewrite append_cons, Hp.
        -- rewrite append_cons in Hp. by injection Hp.
      * split; [done|]. intros [post Hp]. rewrite append_cons in Hp.
        injection Hp as ? ?. congruence.
Qed.

(** X1: [includes s sub] is true exactly when [sub] occurs in [s], that is
    when [s] is some text, then [sub], then some text. *)
Theorem includes_spec (s sub : string) :
  includes s sub = true <-> exists pre post, s = pre ++ sub ++ post.
Proof.
  split.
  - induction s as [|c s IH]; cbn [includes]; intros H.
    + rewrite orb_false_r in H. apply prefix_spec in H as [post Hp].
      exists "", post. by rewrite append_nil_l.
    + apply orb_true_iff in H as [H|H].
      * apply prefix_spec in H as [post Hp]. exists "", post.
        by rewrite append_nil_l.
      * destruct (IH H) as (pre & post & ->). exists (String c pre), post.
        by rewrite append_cons.
  - intros (pre & post & ->). induction pre as [|c pre IH].
    + rewrite append_nil_l.
      assert (String.prefix sub (sub ++ post) = true) as Hp
        by (apply prefix_spec; by exists post).
      destruct (sub ++ post); cbn [includes]; by rewrite Hp.
    + rewrite append_cons. cbn [includes]. by rewrite IH, orb_true_r.
Qed.

(** X2: [split_head sep s] is a prefix of [s] that does not contain [sep];
    what follows it in [s] is nothing or starts with [sep].  A string without
    [sep] is returned whole. *)
Theorem split_head_spec (sep : ascii) (s : string) :
  includes (split_head sep s) (String sep EmptyString) = false
  /\ (exists rest, s = split_head sep s ++ rest
                   /\ (rest = "" \/ exists r, rest = String sep r))
  /\ (includes s (String sep EmptyString) = false -> split_head sep s = s).
Proof.
  induction s as [|c s (IH1 & (rest & IH2 & IH3) & IH4)].
  - repeat split; try done. exists "". split; [done|by left].
  - cbn [split_head]. destruct (Ascii.eqb_spec c sep) as [->|Hne].
    + split; [done|]. split.
      * exists (String sep s). split; [by rewrite append_nil_l|]. right. by exists s.
      * intros H. apply includes_char_cons in H as [H _].
        by rewrite Ascii.eqb_refl in H.
    + split; [|split].
      * cbn [includes String.prefix]. rewrite IH1, orb_false_r.
        destruct (ascii_dec sep c) as [->|_]; [done|]. done.
      * exists rest. split; [|done]. by rewrite append_cons, <- IH2.
      * intros H. apply includes_char_cons in H as [_ H]. by rewrite IH4.
Qed.

(** X3: [digits_only] keeps digits only, keeps all of them in order (a string
    of digits is returned unchanged), and is idempotent. *)
Theorem digits_only_spec (s : string) :
  all_digits (digits_only s) = true
  /\ (all_digits s = true -> digits_only s = s)
  /\ digits_only (digits_only s) = digits_only s.
Proof.
  assert (forall x, all_digits x = true -> digits_only x = x) as Hid.
  { induction x as [|c x IH]; [done|]. cbn. intros H.
    apply andb_true_iff in H as [Hc Hx]. by rewrite Hc, IH. }
  assert (all_digits (digits_only s) = true) as Hall.
  { induction s as [|c s IH]; [done|]. cbn [digits_only].
    destruct (is_digit c) eqn:Hc; [|done]. cbn [all_digits]. by rewrite Hc, IH. }
  split; [done|]. split; [apply Hid|]. by apply Hid.
Qed.

(** ** Relations every step of a handler respects *)
Section Respects.

Variable R : state -> state -> Prop.
Hypothesis R_refl : forall s, R s s.
Hypothesis R_trans : forall s1 s2 s3, R s1 s2 -> R s2 s3 -> R s1 s3.

Lemma respects_ret {A} (a : A) : respects R (ret a).
Proof. intros s. apply R_refl. Qed.

Lemma respects_throw {A} e : respects R (@throw A e).
Proof. intros s. apply R_refl. Qed.

Lemma respects_lift {A} (r : result A) : respects R (lift r).
Proof. intros s. apply R_refl. Qed.

Lemma respects_get {A} (f : state -> A) : respects R (get f).
Proof. intros s. apply R_refl. Qed.

Lemma respects_modify f : (forall s, R s (f s)) -> respects R (modify f).
Proof. intros Hf s. apply Hf. Qed.

Lemma respects_emit e :
  (forall s, R s (set_trace (trace s ++ [e]) s)) -> respects R (emit e).
Proof. intros Hf s. apply Hf. Qed.

Lemma respects_bind {A B} (m : M A) (k : A -> M B) :
  respects R m -> (forall a, respects R (k a)) -> respects R (bind m k).
Proof.
  intros Hm Hk s. unfold bind. pose proof (Hm s) as H1.
  destruct (m s) as [[a|e] s1]; cbn in *; [|done].
  eapply R_trans; [exact H1|]. apply Hk.
Qed.

Lemma respects_try_catch {A} (m : M A) h :
  respects R m -> (forall e, respects R (h e)) -> respects R (try_catch m h).
Proof.
  intros Hm Hh s. unfold try_catch. pose proof (Hm s) as H1.
  destruct (m s) as [[a|e] s1]; cbn in *; [done|].
  eapply R_trans; [exact H1|]. apply Hh.
Qed.

Lemma respects_when b m : respects R m -> respects R (when b m).
Proof. destruct b; [done|]. intros _. apply respects_ret. Qed.

Lemma respects_clearAuthFolder :
  (forall s, R s (after_clear s)) -> respects R clearAuthFolder.
Proof. intros H s. rewrite clearAuthFolder_run. apply H. Qed.

End Respects.

Lemma keeps_refl {B} (f : state -> B) s : keeps f s s.
Proof. done. Qed.

Lemma keeps_trans {B} (f : state -> B) s1 s2 s3 :
  keeps f s1 s2 -> keeps f s2 s3 -> keeps f s1 s3.
Proof. unfold keeps. congruence. Qed.

Lemma not_raised_refl s : not_raised s s.
Proof. unfold not_raised. auto. Qed.

Lemma not_raised_trans s1 s2 s3 :
  not_raised s1 s2 -> not_raised s2 s3 -> not_raised s1 s3.
Proof. unfold not_raised. auto. Qed.

(** Structural proof of [respects R m]; [refl] and [trans] are the proofs
    that [R] is a preorder, and a step that writes a module variable is
    checked on a state taken apart into its fields. *)
Ltac solve_respects refl trans :=
  repeat first
    [ apply respects_clearAuthFolder; intros []; cbv;
      solve [reflexivity | intros; assumption | intros; discriminate]
    | apply (respects_ret _ refl)
    | apply (respects_throw _ refl)
    | apply (respects_lift _ refl)
    | apply (respects_get _ refl)
    | apply (respects_bind _ trans)
    | apply (respects_try_catch _ trans)
    | apply (respects_when _ refl)
    | apply respects_modify; intros []; cbv;
      solve [reflexivity | intros; assumption | intros; discriminate]
    | apply respects_emit; intros []; cbv; solve [reflexivity | intros; assumption]
    | match goal with
      | |- forall _, _ => intro
      | |- respects _ (match ?x with _ => _ end) => destruct x
      end ].

Ltac solve_keeps f := solve_respects (keeps_refl f) (keeps_trans f).
Ltac solve_not_raised := solve_respects not_raised_refl not_raised_trans.


Lemma app_get_dispatch E req :
  app_get E req
  = try_catch
      (if bool_decide (action_of req = "status") then handle_status E req
       else if bool_decide (action_of req = "get_pairing_code")
            then handle_get_pairing_code E req
       else if bool_decide (action_of req = "send")
               || bool_decide (action_of req = "test_msg")
            then handle_send E (action_of req) req
       else if bool_decide (action_of req = "force_reset") then handle_force_reset
       else
         bs <- get bridgeStatus ;;
         ret (Response 200
                (TextBody ("Bridge running (PID " ++ pretty (PID E) ++ "). Status: " ++ bs))))
      (fun msg => ret (Response 500 (ErrorJson msg))).
Proof. reflexivity. Qed.


(** X5: the socket variable is written by [connectToWhatsApp] only, and only
    with a new socket: no event, request or settle task changes it, and a
    connection attempt either installs the socket the factory returned or, on
    a set-up failure, keeps the one there was.  So once a socket exists the
    variable never goes back to null. *)
Theorem socket_never_dropped (E : Env) (s : state) :
  (forall b, sock (exec (on_messages_upsert E b) s) = sock s)
  /\ (forall u, sock (exec (on_connection_update E u) s) = sock s)
  /\ (forall req, sock (exec (app_get E req) s) = sock s)
  /\ sock (exec (settleOpen) s) = sock s
  /\ sock (exec (connectToWhatsApp E) s)
     = match openSocket E with Ok so => Some so | Throw _ => sock s end.
Proof.
  split; [|split; [|split; [|split]]].
  - intros b. revert s. change (respects (keeps sock) (on_messages_upsert E b)).
    unfold on_messages_upsert, logToWhmcs, getAiReply, sock_sendMessage.
    solve_keeps sock.
  - intros u. revert s. change (respects (keeps sock) (on_connection_update E u)).
    unfold on_connection_update. solve_keeps sock.
  - intros req. revert s. change (respects (keeps sock) (app_get E req)).
    unfold app_get, handle_status, handle_get_pairing_code, handle_send,
      handle_force_reset, fetchAiSettings, logToWhmcs, sock_sendMessage,
      sock_requestPairingCode.
    solve_keeps sock.
  - revert s. change (respects (keeps sock) settleOpen).
    unfold settleOpen, fetchAiSettings. solve_keeps sock.
  - unfold exec, connectToWhatsApp. run_monad.
    destruct s. by destruct (openSocket E).
Qed.

(** X6: the connected flag is raised by the settle task alone: after an
    inbound batch, a connection update, a request or a connection attempt the
    flag is set only if it was set before. *)
Theorem connected_flag_raised_by_settle_only (E : Env) (s : state) :
  (forall b, isConnected (exec (on_messages_upsert E b) s) = true -> isConnected s = true)
  /\ (forall u, isConnected (exec (on_connection_update E u) s) = true ->
                isConnected s = true)
  /\ (forall req, isConnected (exec (app_get E req) s) = true -> isConnected s = true)
  /\ (isConnected (exec (connectToWhatsApp E) s) = true -> isConnected s = true)
  /\ isConnected (exec settleOpen s) = true.
Proof.
  split; [|split; [|split; [|split]]].
  - intros b. revert s. change (respects not_raised (on_messages_upsert E b)).
    unfold on_messages_upsert, logToWhmcs, getAiReply, sock_sendMessage.
    solve_not_raised.
  - intros u. revert s. change (respects not_raised (on_connection_update E u)).
    unfold on_connection_update. solve_not_raised.
  - intros req. revert s. change (respects not_raised (app_get E req)).
    unfold app_get, handle_status, handle_get_pairing_code, handle_send,
      handle_force_reset, fetchAiSettings, logToWhmcs, sock_sendMessage,
      sock_requestPairingCode.
    solve_not_raised.
  - revert s. change (respects not_raised (connectToWhatsApp E)).
    unfold connectToWhatsApp. solve_not_raised.
  - unfold exec, settleOpen, fetchAiSettings. run_monad.
    destruct s as [so q0 p0 c b f k a ai dk t]. cbn. by destruct (truthy a).
Qed.

(** ** Connection lifecycle: the remaining branches *)

(** X7: every close event, whatever its cause, marks the bridge disconnected
    and records the error (the message, or the empty text when there is none,
    and the status code, or no code) before any recovery is decided. *)
Theorem close_records_error (E : Env) (u : update) (s : state) :
  connection u = Some "close" ->
  value (on_connection_update E u) s = Ok tt
  /\ isConnected (exec (on_connection_update E u) s) = false
  /\ fullErrorInfo (exec (on_connection_update E u) s)
     = Some (ErrorInfo (close_reason u) (close_code u))
  /\ (lastDisconnect_error u = None ->
      fullErrorInfo (exec (on_connection_update E u) s) = Some (ErrorInfo "" None)).
Proof.
  intros Hc. unfold value, exec.
  destruct (is_auth_error (close_code u) (close_reason u)) eqn:Ha.
  - rewrite (close_auth_error_run E u s Hc Ha). cbn [fst snd].
    repeat split; try (by destruct (after_qr E u s)).
    intros Hn. unfold close_reason, close_code. rewrite Hn.
    by destruct (after_qr E u s).
  - rewrite (close_other_run E u s Hc Ha). cbn [fst snd].
    destruct (bool_decide (close_code u = Some (DisconnectReason_loggedOut E)));
      (repeat split; try (by destruct (after_qr E u s)));
      intros Hn; unfold close_reason, close_code; rewrite Hn;
      by destruct (after_qr E u s).
Qed.

Lemma close_records_error_witness :
  fullErrorInfo (exec (on_connection_update Examples.baileys
                         (Examples.close_with (Some 428) "Connection Closed"))
                      Examples.connected)
  = Some (ErrorInfo "Connection Closed" (Some 428)).
Proof.
  apply (close_records_error Examples.baileys
           (Examples.close_with (Some 428) "Connection Closed") Examples.connected).
  reflexivity.
Defined.

(** What a status request reports, whatever parameters it carries. *)
Lemma status_snapshot_of_state E req s :
  query req !! "action" = Some "status" ->
  exists snap,
    value (app_get E req) s = Ok (Response 200 (StatusJson snap))
    /\ snap_connected snap = isConnected s
    /\ snap_qr snap = qrCode s
    /\ snap_pairing_code snap = pairingCode s
    /\ snap_number snap = own_number s
    /\ snap_message snap = bridgeStatus s
    /\ snap_debug snap = fullErrorInfo s
    /\ snap_pid snap = PID E
    /\ snap_uptime snap = startupTime E.
Proof.
  intros Hact. unfold value. rewrite (app_get_status E req s Hact). unfold try_catch.
  destruct (handle_status_frame E req s)
    as (s' & -> & Hso & Hq & Hp & Hc & Hb & Hf & _).
  eexists. split; [reflexivity|]. unfold status_snapshot, own_number. cbn.
  by rewrite Hso, Hq, Hp, Hc, Hb, Hf.
Qed.

(** X8: a status request always answers 200 with a snapshot of the current
    state: the connected flag, QR code, pairing code, own number, status
    message and last error it reports are those of the state the request
    found, whatever key, admin_url or referrer it carries. *)
Theorem status_reports_state (E : Env) (req : request) (s : state) :
  query req !! "action" = Some "status" ->
  exists snap,
    value (app_get E req) s = Ok (Response 200 (StatusJson snap))
    /\ snap_connected snap = isConnected s
    /\ snap_qr snap = qrCode s
    /\ snap_pairing_code snap = pairingCode s
    /\ snap_number snap = own_number s
    /\ snap_message snap = bridgeStatus s
    /\ snap_debug snap = fullErrorInfo s
    /\ snap_pid snap = PID E
    /\ snap_uptime snap = startupTime E.
Proof. apply status_snapshot_of_state. Qed.

Lemma status_reports_state_witness :
  exists snap,
    value (app_get Examples.baileys
             (Examples.get_request [("action", "status"); ("key", "ABC")]))
          Examples.connected
    = Ok (Response 200 (StatusJson snap))
    /\ snap_connected snap = isConnected Examples.connected
    /\ snap_qr snap = qrCode Examples.connected
    /\ snap_pairing_code snap = pairingCode Examples.connected
    /\ snap_number snap = own_number Examples.connected
    /\ snap_message snap = bridgeStatus Examples.connected
    /\ snap_debug snap = fullErrorInfo Examples.connected
    /\ snap_pid snap = PID Examples.baileys
    /\ snap_uptime snap = startupTime Examples.baileys.
Proof.
  apply (status_reports_state Examples.baileys
           (Examples.get_request [("action", "status"); ("key", "ABC")])
           Examples.connected).
  reflexivity.
Defined.

Lemma settleOpen_run s :
  settleOpen s
  = (Ok tt,
     set_trace
       (trace s ++ (if truthy (adminUrl s)
                    then [AxiosGet (adminUrl s ++ separator (adminUrl s)
                                      ++ "action=get_config&key=" ++ apiKey s)]
                    else []))
       (set_bridgeStatus "Connected!"
          (set_fullErrorInfo None
             (set_pairingCode None (set_qrCode None (set_isConnected true s)))))).
Proof.
  unfold settleOpen, fetchAiSettings. run_monad.
  destruct s as [so q0 p0 c b f k a ai dk t]. cbn.
  destruct (truthy a); cbn; [done|]. by rewrite app_nil_r.
Qed.

Lemma open_run E u s :
  connection u = Some "open" ->
  on_connection_update E u s
  = (Ok tt,
     set_trace (trace s ++ [SetTimeout SettleOpen 5000])
       (set_bridgeStatus "Synchronizing session... Please wait 5 seconds."
          (after_qr E u s))).
Proof.
  intros Hc. unfold on_connection_update, after_qr. rewrite Hc.
  destruct (qr u) as [q|]; [destruct (truthy q)|]; by destruct s.
Qed.

(** X9: a connection-open event does not mark the bridge connected: the flag
    keeps its value and the only effect is the 5000 ms settle timer, so a
    status request made during the delay still reports the old flag.  Once the
    settle task has run, the bridge is connected, and a status request reports
    connected with no QR code, no pairing code and no error. *)
Theorem open_settles_before_connected (E : Env) (u : update) (s : state) :
  connection u = Some "open" ->
  isConnected (exec (on_connection_update E u) s) = isConnected s
  /\ trace (exec (on_connection_update E u) s)
     = (trace s ++ [SetTimeout SettleOpen 5000])%list
  /\ (forall req, query req !! "action" = Some "status" ->
        exists snap,
          value (app_get E req)
                (exec (run_task E SettleOpen) (exec (on_connection_update E u) s))
          = Ok (Response 200 (StatusJson snap))
          /\ snap_connected snap = true
          /\ snap_qr snap = None
          /\ snap_pairing_code snap = None
          /\ snap_debug snap = None
          /\ snap_message snap = "Connected!").
Proof.
  intros Hc. unfold exec. rewrite (open_run E u s Hc). cbn [snd].
  destruct (after_qr_frame E u s) as [_ Ht].
  split; [|split].
  - unfold after_qr. destruct (qr u) as [q|]; [destruct (truthy q)|]; by destruct s.
  - reflexivity.
  - intros req Hreq. cbn [run_task]. rewrite settleOpen_run. cbn [snd].
    match goal with
    | |- context [value (app_get E req) ?st] =>
        destruct (status_snapshot_of_state E req st Hreq)
          as (snap & Hv & H1 & H2 & H3 & _ & H5 & H6 & _)
    end.
    exists snap. rewrite H1, H2, H3, H5, H6.
    by destruct (after_qr E u s).
Qed.

Lemma open_settles_witness :
  isConnected (exec (on_connection_update Examples.baileys
                       (Update (Some "open") None None)) Examples.fresh)
  = isConnected Examples.fresh.
Proof.
  apply (open_settles_before_connected Examples.baileys
           (Update (Some "open") None None) Examples.fresh); reflexivity.
Defined.

Lemma connect_failure_run E s msg :
  openSocket E = Throw msg ->
  connectToWhatsApp E s
  = (Ok tt,
     set_trace (trace s ++ [ConnectAttempt; SetTimeout ConnectToWhatsApp 10000])
       (set_bridgeStatus ("Init Error: " ++ msg)
          (set_fullErrorInfo (Some (ErrorInfo msg None)) s))).
Proof.
  intros Ho. unfold connectToWhatsApp. run_monad. rewrite Ho.
  destruct s. cbn. by rewrite <- app_assoc.
Qed.

Lemma concat_replicate_snoc {A} (x : list A) n :
  (concat (replicate n x) ++ x = x ++ concat (replicate n x))%list.
Proof.
  induction n as [|n IH]; cbn [replicate concat].
  - by rewrite app_nil_r.
  - by rewrite <- app_assoc, IH.
Qed.

(** X10: a socket set-up that throws never escapes [connectToWhatsApp] and
    never ends the retrying: every failed attempt records the error message
    (without a code), shows "Init Error: " and the message as status, and
    schedules exactly one new attempt after the same 10000 ms; [n] failed
    attempts in a row leave [n] attempt marks and [n] timers, with no growth
    of the delay. *)
Theorem connect_failure_retries (E : Env) (msg : string) (n : nat) (s : state) :
  openSocket E = Throw msg ->
  value (connectToWhatsApp E) s = Ok tt
  /\ fullErrorInfo (exec (connectToWhatsApp E) s) = Some (ErrorInfo msg None)
  /\ bridgeStatus (exec (connectToWhatsApp E) s) = "Init Error: " ++ msg
  /\ trace (attempts E n s)
     = (trace s
          ++ concat (replicate n [ConnectAttempt; SetTimeout ConnectToWhatsApp 10000]))%list.
Proof.
  intros Ho. unfold value, exec. rewrite (connect_failure_run E s msg Ho). cbn [fst snd].
  repeat split; try (by destruct s).
  induction n as [|n IH]; cbn [attempts replicate concat].
  - by rewrite app_nil_r.
  - unfold exec. rewrite (connect_failure_run E _ msg Ho). cbn [snd].
    destruct (attempts E n s) as [so q0 p0 c b f k a ai dk t]. cbn in *.
    rewrite IH, <- app_assoc. f_equal.
    apply (concat_replicate_snoc [ConnectAttempt; SetTimeout ConnectToWhatsApp 10000]).
Qed.

Lemma connect_failure_witness :
  trace (attempts Examples.failing_setup 2 Examples.fresh)
  = (trace Examples.fresh
       ++ concat (replicate 2 [ConnectAttempt; SetTimeout ConnectToWhatsApp 10000]))%list.
Proof.
  apply (connect_failure_retries Examples.failing_setup
           "ENOSPC: no space left on device" 2 Examples.fresh).
  reflexivity.
Defined.

(** X11: a pairing challenge (a connection update with a non-empty QR
    payload and no connection change) sends nothing out of the process and
    leaves the connected flag alone; the next status request exposes the
    encoded QR image and the scan prompt. *)
Theorem qr_exposed_by_status (E : Env) (q : string) (s : state) :
  truthy q = true ->
  trace (exec (on_connection_update E (Update None None (Some q))) s) = trace s
  /\ isConnected (exec (on_connection_update E (Update None None (Some q))) s)
     = isConnected s
  /\ (forall req, query req !! "action" = Some "status" ->
        exists snap,
          value (app_get E req)
                (exec (on_connection_update E (Update None None (Some q))) s)
          = Ok (Response 200 (StatusJson snap))
          /\ snap_qr snap = Some (toDataURL E q)
          /\ snap_message snap = "QR Code Generated - SCAN or Use Pairing Code!").
Proof.
  intros Hq.
  assert (exec (on_connection_update E (Update None None (Some q))) s
          = set_bridgeStatus "QR Code Generated - SCAN or Use Pairing Code!"
              (set_qrCode (Some (toDataURL E q)) s)) as ->.
  { unfold exec, on_connection_update. cbn [qr connection]. rewrite Hq. by destruct s. }
  split; [by destruct s|]. split; [by destruct s|].
  intros req Hreq.
  match goal with
  | |- context [value (app_get E req) ?st] =>
      destruct (status_snapshot_of_state E req st Hreq)
        as (snap & Hv & _ & H2 & _ & _ & H5 & _)
  end.
  exists snap. rewrite H2, H5. by destruct s.
Qed.

Lemma qr_exposed_witness :
  trace (exec (on_connection_update Examples.baileys
                 (Update None None (Some "2@AbCdEf,xyz=="))) Examples.fresh)
  = trace Examples.fresh.
Proof.
  apply (qr_exposed_by_status Examples.baileys "2@AbCdEf,xyz==" Examples.fresh).
  reflexivity.
Defined.

(** ** Message bridge dispatcher: the remaining paths *)

(** X12: echo suppression and empty payloads.  When the first message of a
    live batch is the bridge's own, or has no payload, or has no text
    (neither a conversation text nor an extended text), the handler returns
    without any effect and without changing the state: nothing is logged and
    the AI client is not called. *)
Theorem upsert_ignores_own_and_textless (E : Env) (b : upsert) (m : waMessage) (s : state) :
  head (messages b) = Some m ->
  (fromMe (msg_key m) = true
   \/ msg_message m = None
   \/ (exists c, msg_message m = Some c
                 /\ truthy_opt (or_else (conversation c) (extendedTextMessage_text c)) = false)) ->
  on_messages_upsert E b s = (Ok tt, s).
Proof.
  intros Hhd Hcase. unfold on_messages_upsert.
  destruct (bool_decide (upsert_type b = "notify")); [|done]. cbn [negb].
  destruct (messages b) as [|m' rest]; [done|]. cbn in Hhd. injection Hhd as ->.
  destruct Hcase as [Hme|[Hno|(c & Hc & Htext)]].
  - rewrite Hme. by destruct (msg_message m).
  - by rewrite Hno.
  - rewrite Hc. destruct (fromMe (msg_key m)); [done|].
    destruct (or_else (conversation c) (extendedTextMessage_text c)) as [t|]; [|done].
    cbn in Htext. by rewrite Htext.
Qed.

Lemma upsert_ignores_own_witness :
  on_messages_upsert Examples.baileys
    (Upsert [Examples.own_echo "15550001111@s.whatsapp.net" "mine"] "notify")
    Examples.with_ai
  = (Ok tt, Examples.with_ai).
Proof.
  apply (upsert_ignores_own_and_textless Examples.baileys
           (Upsert [Examples.own_echo "15550001111@s.whatsapp.net" "mine"] "notify")
           (Examples.own_echo "15550001111@s.whatsapp.net" "mine") Examples.with_ai).
  - reflexivity.
  - left. reflexivity.
Defined.

Lemma getAiReply_exact E text s :
  truthy (key (aiSettings s)) = true ->
  getAiReply E text s
  = (Ok (match chatCompletion E (key (aiSettings s))
                 (or_default (Some (model (aiSettings s))) "google/gemini-2.0-flash-exp:free")
                 (or_default (Some (prompt (aiSettings s))) "You are a helpful assistant.")
                 text with
         | Ok c => Some c
         | Throw _ => None
         end),
     set_trace (trace s ++ ai_request s text) s).
Proof.
  intros Hk. unfold getAiReply, ai_request. run_monad.
  destruct s as [so q0 p0 c b f k a ai dk t]. cbn in *. rewrite Hk. cbn.
  by destruct (chatCompletion E _ _ _ _).
Qed.

(** What the handler does with a processed message, step by step. *)
Lemma upsert_processed_steps E b m sender text s :
  processed b m sender text ->
  on_messages_upsert E b s
  = (logToWhmcs E (resolve_phone m sender) text "in" ;;;
     ai <- get aiSettings ;;
     when (truthy (key ai))
       (reply <- getAiReply E text ;;
        match reply with
        | Some r =>
            when (truthy r)
              (sock_sendMessage E sender r ;;;
               logToWhmcs E (resolve_phone m sender) r "out")
        | None => ret tt
        end)) s.
Proof.
  intros (Hty & Hhd & Hme & (c & Hc & Htext) & Htr & Hjid).
  unfold on_messages_upsert. rewrite Hty.
  rewrite (bool_decide_eq_true_2 _ eq_refl). cbn [negb].
  destruct (messages b) as [|m' rest]; [done|]. cbn in Hhd. injection Hhd as ->.
  by rewrite Hc, Hme, Htext, Htr, Hjid.
Qed.

(** X13: with no AI provider key configured, a processed message is logged
    inbound (if an admin URL is linked) and nothing else happens: the AI
    provider is not contacted and nothing is sent back to the sender. *)
Theorem no_ai_key_no_reply (E : Env) (b : upsert) (m : waMessage)
    (sender text : string) (s : state) :
  processed b m sender text ->
  truthy (key (aiSettings s)) = false ->
  on_messages_upsert E b s
  = (Ok tt,
     set_trace (trace s ++ log_request E s (resolve_phone m sender) text "in") s).
Proof.
  intros Hp Hk. rewrite (upsert_processed_steps E b m sender text s Hp).
  erewrite bind_ok by apply logToWhmcs_run.
  erewrite bind_ok by reflexivity.
  assert (aiSettings (set_trace (trace s ++ log_request E s (resolve_phone m sender) text "in") s)
          = aiSettings s) as -> by (by destruct s).
  by rewrite Hk.
Qed.

Lemma no_ai_key_witness :
  on_messages_upsert Examples.baileys
    (Upsert [Examples.text_from "15550001111@s.whatsapp.net" "hi"] "notify")
    Examples.linked
  = (Ok tt,
     set_trace
       (trace Examples.linked
          ++ log_request Examples.baileys Examples.linked
               (resolve_phone (Examples.text_from "15550001111@s.whatsapp.net" "hi")
                  "15550001111@s.whatsapp.net") "hi" "in")
       Examples.linked).
Proof.
  apply (no_ai_key_no_reply Examples.baileys
           (Upsert [Examples.text_from "15550001111@s.whatsapp.net" "hi"] "notify")
           (Examples.text_from "15550001111@s.whatsapp.net" "hi")
           "15550001111@s.whatsapp.net" "hi" Examples.linked).
  - unfold processed. cbn. repeat split; try reflexivity.
    eexists. split; reflexivity.
  - reflexivity.
Defined.

(** X14: with a provider key configured and a socket present, a processed
    message is logged inbound and passed to the AI provider.  A non-empty
    completion is sent to the raw sender identifier and then logged outbound
    under the resolved phone number; a failed or empty completion ends the
    handler quietly with nothing sent; a send that throws makes the handler
    throw, after the send attempt and without an outbound log. *)
Theorem ai_reply_path (E : Env) (b : upsert) (m : waMessage)
    (sender text : string) (s : state) (so : socket) :
  processed b m sender text ->
  truthy (key (aiSettings s)) = true ->
  sock s = Some so ->
  on_messages_upsert E b s
  = match chatCompletion E (key (aiSettings s))
            (or_default (Some (model (aiSettings s))) "google/gemini-2.0-flash-exp:free")
            (or_default (Some (prompt (aiSettings s))) "You are a helpful assistant.")
            text with
    | Ok r =>
        if truthy r
        then match sendMessage E sender r with
             | Ok _ =>
                 (Ok tt,
                  set_trace
                    (trace s ++ log_request E s (resolve_phone m sender) text "in"
                       ++ ai_request s text
                       ++ SendMessage sender r
                       :: log_request E s (resolve_phone m sender) r "out") s)
             | Throw e =>
                 (Throw e,
                  set_trace
                    (trace s ++ log_request E s (resolve_phone m sender) text "in"
                       ++ ai_request s text ++ [SendMessage sender r]) s)
             end
        else (Ok tt,
              set_trace
                (trace s ++ log_request E s (resolve_phone m sender) text "in"
                   ++ ai_request s text) s)
    | Throw _ =>
        (Ok tt,
         set_trace
           (trace s ++ log_request E s (resolve_phone m sender) text "in"
              ++ ai_request s text) s)
    end.
Proof.
  intros Hp Hk Hs. rewrite (upsert_processed_steps E b m sender text s Hp).
  erewrite bind_ok by apply logToWhmcs_run.
  erewrite bind_ok by reflexivity.
  set (s1 := set_trace (trace s ++ log_request E s (resolve_phone m sender) text "in") s).
  assert (aiSettings s1 = aiSettings s) as Hai by (by destruct s).
  assert (sock s1 = Some so) as Hs1 by (by destruct s).
  rewrite Hai, Hk. cbn [when].
  erewrite bind_ok by (apply getAiReply_exact; by rewrite Hai).
  rewrite Hai.
  set (s2 := set_trace (trace s1 ++ ai_request s1 text) s1).
  assert (sock s2 = Some so) as Hs2 by (by destruct s).
  assert (ai_request s1 text = ai_request s text) as Hreq by (by destruct s).
  destruct (chatCompletion E _ _ _ _) as [r|e].
  - destruct (truthy r); cbn [when].
    + unfold bind at 1. rewrite (sock_sendMessage_run E sender r s2 so Hs2).
      destruct (sendMessage E sender r) as [o|e].
      * rewrite logToWhmcs_run. subst s2 s1. destruct s. cbn.
        unfold log_request, ai_request. cbn.
        by rewrite <- !app_assoc.
      * subst s2 s1. destruct s. cbn. unfold log_request, ai_request. cbn.
        by rewrite <- !app_assoc.
    + subst s2 s1. destruct s. cbn. unfold log_request, ai_request. cbn.
      by rewrite <- !app_assoc.
  - subst s2 s1. destruct s. cbn. unfold log_request, ai_request. cbn.
    by rewrite <- !app_assoc.
Qed.

Lemma ai_reply_witness :
  trace (exec (on_messages_upsert Examples.baileys
                 (Upsert [Examples.text_from "15550001111@s.whatsapp.net" "hi"] "notify"))
              Examples.with_ai)
  = [AxiosGet ("https://x.test/addonmodules.php?module=wa&action=log_msg&key=your_secret_key"
               ++ "&phone=15550001111&message=hi&direction=in");
     AxiosPost "sk-or-123" "google/gemini-2.0-flash-exp:free" "Be brief." "hi";
     SendMessage "15550001111@s.whatsapp.net" "Hello from the assistant";
     AxiosGet ("https://x.test/addonmodules.php?module=wa&action=log_msg&key=your_secret_key"
               ++ "&phone=15550001111&message=Hello from the assistant&direction=out")].
Proof.
  unfold exec.
  rewrite (ai_reply_path Examples.baileys
             (Upsert [Examples.text_from "15550001111@s.whatsapp.net" "hi"] "notify")
             (Examples.text_from "15550001111@s.whatsapp.net" "hi")
             "15550001111@s.whatsapp.net" "hi" Examples.with_ai
             (Socket (Some "15551234567:12@s.whatsapp.net"))).
  - reflexivity.
  - unfold processed. cbn. repeat split; try reflexivity.
    eexists. split; reflexivity.
  - reflexivity.
  - reflexivity.
Defined.

(** X15: the handler is not protected against malformed batches: a live
    batch with no message at all, or whose first text message names no
    sender, makes it throw a TypeError (an unhandled rejection), in the first
    case before anything was done; an empty batch that is not live is
    ignored like any other. *)
Theorem upsert_malformed_batch_throws (E : Env) (s : state) :
  on_messages_upsert E (Upsert [] "notify") s
  = (Throw "Cannot read properties of undefined (reading 'message')", s)
  /\ (forall ty, ty <> "notify" -> on_messages_upsert E (Upsert [] ty) s = (Ok tt, s))
  /\ (forall c text m rest,
        msg_message m = Some c ->
        fromMe (msg_key m) = false ->
        remoteJid (msg_key m) = None ->
        or_else (conversation c) (extendedTextMessage_text c) = Some text ->
        truthy text = true ->
        on_messages_upsert E (Upsert (m :: rest) "notify") s
        = (Throw "Cannot read properties of undefined (reading 'split')", s)).
Proof.
  split; [done|]. split.
  - intros ty Hty. unfold on_messages_upsert. cbn.
    by rewrite (bool_decide_eq_false_2 _ Hty).
  - intros c text m rest Hc Hme Hjid Htext Htr. unfold on_messages_upsert. cbn.
    by rewrite Hc, Hme, Htext, Htr, Hjid.
Qed.

(** ** Control API: the remaining actions *)

Lemma app_get_pairing E req s :
  query req !! "action" = Some "get_pairing_code" ->
  app_get E req s
  = try_catch (handle_get_pairing_code E req)
      (fun msg => ret (Response 500 (ErrorJson msg))) s.
Proof. intros H. unfold app_get. by rewrite H. Qed.

(** X16: a get_pairing_code request without a phone (missing or empty) is
    answered 400 "Phone required" and changes nothing.  With a phone, the
    session client is asked for a code for the phone's digits only; the code
    it returns is stored and returned with status 200, and a following status
    request reports it; if the client throws, or there is no socket yet, the
    answer is 500 with the error message and no code is stored. *)
Theorem pairing_code_request (E : Env) (req : request) (s : state) :
  query req !! "action" = Some "get_pairing_code" ->
  (truthy_opt (query req !! "phone") = false ->
     app_get E req s = (Ok (Response 400 (ErrorJson "Phone required")), s))
  /\ (forall phone so,
        query req !! "phone" = Some phone -> truthy phone = true ->
        sock s = Some so ->
        trace (exec (app_get E req) s)
        = (trace s ++ [RequestPairingCode (digits_only phone)])%list
        /\ match requestPairingCode E (digits_only phone) with
           | Ok c =>
               value (app_get E req) s = Ok (Response 200 (PairingJson c))
               /\ pairingCode (exec (app_get E req) s) = Some c
               /\ (forall req2, query req2 !! "action" = Some "status" ->
                     exists snap,
                       value (app_get E req2) (exec (app_get E req) s)
                       = Ok (Response 200 (StatusJson snap))
                       /\ snap_pairing_code snap = Some c)
           | Throw e =>
               value (app_get E req) s = Ok (Response 500 (ErrorJson e))
               /\ pairingCode (exec (app_get E req) s) = pairingCode s
           end)
  /\ (forall phone,
        query req !! "phone" = Some phone -> truthy phone = true ->
        sock s = None ->
        app_get E req s
        = (Ok (Response 500
                 (ErrorJson "Cannot read properties of null (reading 'requestPairingCode')")),
           s)).
Proof.
  intros Hact. rewrite (app_get_pairing E req s Hact).
  unfold exec, value. rewrite (app_get_pairing E req s Hact).
  split; [|split].
  - intros Hno. unfold try_catch, handle_get_pairing_code.
    destruct (query req !! "phone") as [phone|]; [|done].
    cbn in Hno. by rewrite Hno.
  - intros phone so Hph Htr Hs.
    unfold try_catch, handle_get_pairing_code, sock_requestPairingCode.
    rewrite Hph, Htr. cbn [negb]. run_monad.
    destruct s as [so0 q0 p0 c b f k a ai dk t]. cbn in Hs. subst so0. cbn.
    destruct (requestPairingCode E (digits_only phone)) as [cd|e] eqn:Hrp; cbn.
    + split; [done|]. split; [done|]. split; [done|].
      intros req2 Hreq2.
      match goal with
      | |- context [app_get E req2 ?st] =>
          destruct (status_snapshot_of_state E req2 st Hreq2)
            as (snap & Hv & _ & _ & H3 & _)
      end.
      exists snap. split; [exact Hv|]. by rewrite H3.
    + done.
  - intros phone Hph Htr Hs.
    unfold try_catch, handle_get_pairing_code, sock_requestPairingCode.
    rewrite Hph, Htr. cbn [negb]. run_monad.
    destruct s as [so0 q0 p0 c b f k a ai dk t]. cbn in Hs. by subst so0.
Qed.

Lemma pairing_code_witness :
  app_get Examples.baileys (Examples.get_request [("action", "get_pairing_code")])
          Examples.connected
  = (Ok (Response 400 (ErrorJson "Phone required")), Examples.connected).
Proof.
  apply (pairing_code_request Examples.baileys
           (Examples.get_request [("action", "get_pairing_code")]) Examples.connected);
    reflexivity.
Defined.

(** X18: a request whose action is missing, empty or not one of status,
    get_pairing_code, send, test_msg and force_reset gets the plain status
    line with the process id and the current status message, status 200, and
    changes nothing. *)
Theorem unknown_action_is_home (E : Env) (req : request) (s : state) :
  action_of req <> "status" ->
  action_of req <> "get_pairing_code" ->
  action_of req <> "send" ->
  action_of req <> "test_msg" ->
  action_of req <> "force_reset" ->
  app_get E req s
  = (Ok (Response 200
           (TextBody ("Bridge running (PID " ++ pretty (PID E) ++ "). Status: "
                        ++ bridgeStatus s))), s)
  /\ (query req !! "action" = None \/ query req !! "action" = Some "" ->
      action_of req = "home").
Proof.
  intros H1 H2 H3 H4 H5. split.
  - rewrite app_get_dispatch.
    rewrite (bool_decide_eq_false_2 _ H1), (bool_decide_eq_false_2 _ H2),
      (bool_decide_eq_false_2 _ H3), (bool_decide_eq_false_2 _ H4),
      (bool_decide_eq_false_2 _ H5).
    reflexivity.
  - unfold action_of. by intros [->| ->].
Qed.

Lemma unknown_action_witness :
  app_get Examples.baileys (Examples.get_request [("action", "reboot")]) Examples.connected
  = (Ok (Response 200
           (TextBody ("Bridge running (PID " ++ pretty (PID Examples.baileys)
                        ++ "). Status: " ++ bridgeStatus Examples.connected))),
     Examples.connected).
Proof.
  apply (unknown_action_is_home Examples.baileys
           (Examples.get_request [("action", "reboot")]) Examples.connected);
    vm_compute; congruence.
Defined.

Lemma handle_status_run E req s :
  handle_status E req s
  = (Ok (Response 200 (StatusJson (status_snapshot E (after_status req s)))),
     after_status req s).
Proof.
  destruct s as [so q0 p0 c b f k a ai dk t].
  unfold handle_status, fetchAiSettings, after_status, link_referer, link_explicit,
    sync_key, fetched.
  run_monad. cbn.
  destruct (query req !! "key") as [qk|]; [destruct (truthy qk), (bool_decide (qk = k))|];
    cbn;
    (destruct (query req !! "admin_url") as [u|];
       [destruct (truthy u) eqn:Hu, (bool_decide (a = u)); cbn; rewrite ?Hu; cbn|]);
    (destruct (truthy a) eqn:Ha; cbn);
    (destruct (headers req !! "referer") as [ref|];
       [destruct (truthy ref), (includes ref "addonmodules.php"); cbn;
        try destruct (truthy (split_head "&" ref)); cbn|]);
    reflexivity.
Qed.

Lemma fetched_fields s :
  apiKey (fetched s) = apiKey s /\ adminUrl (fetched s) = adminUrl s.
Proof. unfold fetched. destruct (truthy (adminUrl s)); by destruct s. Qed.

Lemma sync_key_fixed req s :
  apiKey (after_status req s) = apiKey (sync_key req s)
  /\ sync_key req (after_status req s) = after_status req s.
Proof.
  assert (apiKey (after_status req s) = apiKey (sync_key req s)) as Hk.
  { unfold after_status, link_referer, link_explicit.
    set (s1 := sync_key req s).
    destruct (query req !! "admin_url") as [u|];
      [destruct (truthy u && negb (bool_decide (adminUrl s1 = u)))|];
      (destruct (headers req !! "referer") as [ref|];
       [match goal with |- context [if ?c then _ else _] => destruct c end|]);
      rewrite ?(proj1 (fetched_fields _)); try done; cbn;
      rewrite ?(proj1 (fetched_fields _)); try done; by destruct s1. }
  split; [done|].
  unfold sync_key at 1. destruct (query req !! "key") as [q|] eqn:Hq; [|done].
  destruct (truthy q) eqn:Htq; [|done]. cbn [andb].
  rewrite Hk. unfold sync_key. rewrite Hq, Htq. cbn [andb].
  destruct (bool_decide (q = apiKey s)) eqn:Hqk; cbn [negb].
  - by rewrite Hqk.
  - destruct s. cbn. by rewrite (bool_decide_eq_true_2 _ (eq_refl q)).
Qed.

Lemma set_adminUrl_same s : set_adminUrl (adminUrl s) s = s.
Proof. by destruct s. Qed.

Lemma link_referer_fixed req s :
  link_referer req (link_referer req s) = link_referer req s.
Proof.
  unfold link_referer. destruct (headers req !! "referer") as [ref|]; [|done].
  destruct (negb (truthy (adminUrl s)) && truthy ref && includes ref "addonmodules.php")
    eqn:Hc; [|by rewrite Hc].
  apply andb_true_iff in Hc as [Hc Hi]. apply andb_true_iff in Hc as [_ Hr].
  rewrite Hr, Hi.
  assert (adminUrl (fetched (set_adminUrl (split_head "&" ref) s)) = split_head "&" ref)
    as Ha by (rewrite (proj2 (fetched_fields _)); by destruct s).
  rewrite Ha. destruct (truthy (split_head "&" ref)) eqn:Hsp; [done|]. cbn [negb andb].
  rewrite <- Ha at 1. rewrite set_adminUrl_same.
  unfold fetched at 1. by rewrite Ha, Hsp.
Qed.

Lemma link_explicit_fixed req s :
  link_explicit req (link_referer req (link_explicit req s))
  = link_referer req (link_explicit req s).
Proof.
  destruct (query req !! "admin_url") as [u|] eqn:Hq.
  2:{ unfold link_explicit. by rewrite Hq. }
  destruct (truthy u) eqn:Hu.
  2:{ unfold link_explicit. by rewrite Hq, Hu. }
  assert (adminUrl (link_explicit req s) = u) as Ha.
  { unfold link_explicit. rewrite Hq, Hu. cbn [andb].
    destruct (bool_decide (adminUrl s = u)) eqn:Hau; cbn [negb].
    - by apply bool_decide_eq_true_1 in Hau.
    - rewrite (proj2 (fetched_fields _)). by destruct s. }
  assert (link_referer req (link_explicit req s) = link_explicit req s) as Hl.
  { unfold link_referer. destruct (headers req !! "referer") as [ref|]; [|done].
    by rewrite Ha, Hu. }
  rewrite Hl. unfold link_explicit at 1. rewrite Hq, Hu, Ha. cbn [andb].
  by rewrite (bool_decide_eq_true_2 _ (eq_refl u)).
Qed.

Lemma after_status_fixed req s : after_status req (after_status req s) = after_status req s.
Proof.
  unfold after_status at 1. rewrite (proj2 (sync_key_fixed req s)).
  unfold after_status. by rewrite link_explicit_fixed, link_referer_fixed.
Qed.

(** X19: polling is idempotent.  A status request repeated with the same
    parameters and headers gets the same answer, changes nothing more and
    sends nothing more: the key and admin URL adopted by the first request
    are found in place by the second, so the AI settings are fetched at most
    once. *)
Theorem status_request_idempotent (E : Env) (req : request) (s : state) :
  query req !! "action" = Some "status" ->
  app_get E req (exec (app_get E req) s)
  = (value (app_get E req) s, exec (app_get E req) s).
Proof.
  intros Hact. unfold exec, value. rewrite !(app_get_status E req _ Hact).
  unfold try_catch. rewrite !handle_status_run. cbn [fst snd].
  by rewrite after_status_fixed.
Qed.

Lemma status_request_idempotent_witness :
  app_get Examples.baileys
    (Examples.get_request [("action", "status");
                           ("admin_url", "https://x.test/addon.php"); ("key", "ABC")])
    (exec (app_get Examples.baileys
             (Examples.get_request [("action", "status");
                                    ("admin_url", "https://x.test/addon.php");
                                    ("key", "ABC")])) Examples.fresh)
  = (value (app_get Examples.baileys
              (Examples.get_request [("action", "status");
                                     ("admin_url", "https://x.test/addon.php");
                                     ("key", "ABC")])) Examples.fresh,
     exec (app_get Examples.baileys
             (Examples.get_request [("action", "status");
                                    ("admin_url", "https://x.test/addon.php");
                                    ("key", "ABC")])) Examples.fresh).
Proof.
  apply (status_request_idempotent Examples.baileys
           (Examples.get_request [("action", "status");
                                  ("admin_url", "https://x.test/addon.php");
                                  ("key", "ABC")]) Examples.fresh).
  reflexivity.
Defined.

(** X20: how the target of a send or test_msg request is found.  An explicit
    non-empty [to] is the target for both actions.  Without it, a send request
    has no target and is answered 400 even when the bridge knows its own
    number, while a test_msg request targets the bridge's own number, the part
    of the socket's user id before ":"; with no socket user it is answered 400
    as well. *)
Theorem send_target_rules (E : Env) (req : request) (s : state) :
  isConnected s = true ->
  (forall action t, query req !! "to" = Some t -> truthy t = true ->
     send_target action req s = Some t)
  /\ (truthy_opt (query req !! "to") = false ->
      query req !! "action" = Some "send" ->
      app_get E req s = (Ok (Response 400 (ErrorJson "No target number")), s))
  /\ (truthy_opt (query req !! "to") = false ->
      query req !! "action" = Some "test_msg" ->
      forall so i, sock s = Some so -> user_id so = Some i ->
        truthy (split_head ":" i) = true ->
        exists rest,
          trace (exec (app_get E req) s)
          = (trace s
               ++ SendMessage (digits_only (split_head ":" i) ++ "@s.whatsapp.net")
                              (or_default (query req !! "message") default_text)
               :: rest)%list)
  /\ (truthy_opt (query req !! "to") = false ->
      query req !! "action" = Some "test_msg" ->
      sock s ≫= user_id = None ->
      app_get E req s = (Ok (Response 400 (ErrorJson "No target number")), s)).
Proof.
  intros Hc. split; [|split; [|split]].
  - intros action t Ht Htt. unfold send_target. rewrite Ht. cbn [truthy_opt].
    by rewrite Htt.
  - intros Hno Hact. rewrite (app_get_send E req "send" s Hact (or_introl eq_refl)).
    apply try_ok. unfold handle_send.
    erewrite bind_ok by reflexivity.
    erewrite bind_ok by (unfold get; rewrite Hc; reflexivity). cbn [negb].
    unfold send_target.
    destruct (query req !! "to") as [[|c0 t]|]; try discriminate Hno; reflexivity.
  - intros Hno Hact so i Hs Hi Htr. unfold exec.
    rewrite (app_get_send E req "test_msg" s Hact (or_intror eq_refl)).
    unfold try_catch.
    assert (send_target "test_msg" req s = Some (split_head ":" i)) as Ht.
    { unfold send_target. rewrite Hno, Hs. cbn. by rewrite Hi. }
    rewrite (handle_send_run E "test_msg" req s so _ Hc Hs Ht Htr).
    destruct (sendMessage E _ _) as [[id|]|e]; eexists; by destruct s.
  - intros Hno Hact Hnone.
    rewrite (app_get_send E req "test_msg" s Hact (or_intror eq_refl)).
    apply try_ok. unfold handle_send.
    assert (send_target "test_msg" req s = None) as Ht.
    { unfold send_target. rewrite Hno. cbn. by rewrite Hnone. }
    erewrite bind_ok by (unfold get; rewrite Ht; reflexivity).
    erewrite bind_ok by (unfold get; rewrite Hc; reflexivity). reflexivity.
Qed.

Lemma send_target_rules_witness :
  app_get Examples.baileys (Examples.get_request [("action", "send")]) Examples.connected
  = (Ok (Response 400 (ErrorJson "No target number")), Examples.connected).
Proof.
  apply (proj1 (proj2 (send_target_rules Examples.baileys
           (Examples.get_request [("action", "send")]) Examples.connected eq_refl)));
    reflexivity.
Defined.

(** ** Credential store, settings and start-up *)

Lemma cleared_idempotent d : cleared (cleared d) = cleared d.
Proof.
  unfold cleared. destruct d as [[| |es] w]; cbn.
  - destruct w; cbn; [|done]. by rewrite map_filter_empty.
  - destruct w; cbn; [|done]. by rewrite map_filter_empty.
  - f_equal. f_equal. apply map_eq. intros k.
    destruct (filter is_subdir es !! k) as [e|] eqn:He.
    + apply map_lookup_filter_Some. split; [done|].
      by apply map_lookup_filter_Some in He as [_ ?].
    + apply map_lookup_filter_None. by left.
Qed.

(** X21: clearing is idempotent on the store: a second [clearAuthFolder]
    right after the first leaves the credential location exactly as the first
    left it, and neither call throws. *)
Theorem clearAuthFolder_idempotent (s : state) :
  authDisk (exec clearAuthFolder (exec clearAuthFolder s))
  = authDisk (exec clearAuthFolder s)
  /\ value clearAuthFolder (exec clearAuthFolder s) = Ok tt.
Proof.
  unfold exec, value. rewrite !clearAuthFolder_run. cbn [fst snd].
  split; [|done]. destruct s as [so q0 p0 c b f k a ai dk t]. cbn.
  apply cleared_idempotent.
Qed.

(** X22: the AI settings change only when the admin system's answer carries
    a non-empty openrouter_key: then the key, model and prompt of the answer
    are adopted and auto-reply is on.  A failed request, an empty answer or an
    answer without a key leaves the settings, and the rest of the state,
    untouched, so a failed refresh never turns a configured auto-reply off. *)
Theorem ai_settings_adoption (data : result (option configData)) (s : state) :
  (forall d k, data = Ok (Some d) -> openrouter_key d = Some k -> truthy k = true ->
     fetchAiSettings_response data s
     = (Ok tt, set_aiSettings (MkAi k (or_default (ai_model d) "")
                                      (or_default (ai_prompt d) "")) s)
     /\ truthy (key (aiSettings (exec (fetchAiSettings_response data) s))) = true)
  /\ ((forall d, data = Ok (Some d) -> truthy_opt (openrouter_key d) = false) ->
      fetchAiSettings_response data s = (Ok tt, s)).
Proof.
  split.
  - intros d k -> Hk Htk. unfold exec, fetchAiSettings_response.
    rewrite Hk. cbn [truthy_opt or_default]. rewrite Htk. cbn.
    split; [done|]. by destruct s.
  - intros Hno. unfold fetchAiSettings_response.
    destruct data as [[d|]|e]; try done. by rewrite (Hno d eq_refl).
Qed.

(** X23: the lock file does not lock.  A second instance starts whatever the
    file holds and takes the file over; when the first instance exits later it
    finds another process id and leaves the file alone; each instance removes
    the file on exit only while it still holds its own id, and a missing file
    at exit is not an error. *)
Theorem lock_file_is_advisory (p q : Z) (lock : option string) :
  p <> q ->
  LockFile.startup q (LockFile.startup p lock) = Some (pretty q)
  /\ LockFile.on_exit p (LockFile.startup q (LockFile.startup p lock)) = Some (pretty q)
  /\ LockFile.on_exit q (LockFile.startup q (LockFile.startup p lock)) = None
  /\ LockFile.on_exit p (LockFile.startup p lock) = None
  /\ LockFile.on_exit p None = None.
Proof.
  intros Hpq. unfold LockFile.startup, LockFile.on_exit.
  repeat split; try (by rewrite (bool_decide_eq_true_2 _ eq_refl)).
  rewrite bool_decide_eq_false_2; [done|].
  intros Heq. apply Hpq. symmetry. by apply (inj pretty).
Qed.

Lemma lock_file_witness :
  LockFile.on_exit 4242 (LockFile.startup 4343 (LockFile.startup 4242 None))
  = Some (pretty 4343).
Proof.
  apply (lock_file_is_advisory 4242 4343 None). lia.
Defined.

Lemma ensureAuthFolder_run s :
  ensureAuthFolder s
  = (Ok tt,
     match authNode (authDisk s) with
     | Absent =>
         set_authDisk (if parentWritable (authDisk s)
                       then Disk (Directory ∅) true else authDisk s)
           (set_trace (trace s ++ [FsMkdir]) s)
     | _ => s
     end).
Proof.
  unfold ensureAuthFolder, Fs.existsSync, Fs.mkdirSync. run_monad.
  destruct s as [so q0 p0 c b f k a ai [[| |es] w] t]; cbn; try done.
  by destruct w.
Qed.

(** X24: [ensureAuthFolder], which runs when the module loads and at the end
    of every clear, never throws and never wipes a saved session.  When the
    credential location exists it makes no file-system call and changes
    nothing; when it is missing it attempts one [mkdir], which gives an empty
    directory under a writable parent and whose failure is swallowed
    otherwise.  A second call leaves the location as the first did. *)
Theorem ensureAuthFolder_keeps_session (s : state) :
  value ensureAuthFolder s = Ok tt
  /\ (authNode (authDisk s) <> Absent -> exec ensureAuthFolder s = s)
  /\ (authNode (authDisk s) = Absent ->
      trace (exec ensureAuthFolder s) = (trace s ++ [FsMkdir])%list
      /\ authNode (authDisk (exec ensureAuthFolder s))
         = (if parentWritable (authDisk s) then Directory ∅ else Absent))
  /\ authDisk (exec ensureAuthFolder (exec ensureAuthFolder s))
     = authDisk (exec ensureAuthFolder s).
Proof.
  unfold value, exec. rewrite !ensureAuthFolder_run. cbn [fst snd].
  destruct s as [so q0 p0 c b f k a ai [n w] t]. cbn.
  split; [done|]. split; [|split].
  - intros Hn. by destruct n.
  - intros ->. by destruct w.
  - destruct n; [destruct w|..]; reflexivity.
Qed.

Lemma answers_pairing E req : answers_well (handle_get_pairing_code E req).
Proof.
  intros s. unfold handle_get_pairing_code, sock_requestPairingCode.
  destruct (query req !! "phone") as [phone|]; [|cbn; by left].
  destruct (truthy phone); cbn [negb]; [|cbn; by left].
  run_monad. destruct s as [[so|] q0 p0 c b f k a ai dk t]; cbn; [|done].
  destruct (requestPairingCode E (digits_only phone)); cbn; done.
Qed.

Lemma answers_send E action req : answers_well (handle_send E action req).
Proof.
  intros s. unfold handle_send, sock_sendMessage, logToWhmcs. run_monad.
  destruct s as [so q0 p0 c b f k a ai dk t]. cbn.
  destruct c; cbn; [|by right].
  destruct (send_target action req _) as [tg|]; cbn; [|by left].
  destruct (truthy tg); cbn; [|by left].
  destruct so; cbn; [|done].
  destruct (sendMessage E _ _) as [[id|]|e]; cbn; try done.
  destruct (truthy a); cbn; done.
Qed.

(** X17: no request makes the route handler throw: whatever the request and
    the state, and whatever the session client answers, [app_get] ends with a
    response; the response is an error body with status 400 or 500, or
    another body with status 200. *)
Theorem app_get_always_responds (E : Env) (req : request) (s : state) :
  exists r, value (app_get E req) s = Ok r /\ well_formed_response r.
Proof.
  unfold value. rewrite app_get_dispatch. unfold try_catch.
  match goal with |- context [?m s] =>
    assert (answers_well m) as Hm; [|specialize (Hm s); destruct (m s) as [[r|e] s']]
  end.
  - destruct (bool_decide (action_of req = "status")).
    { intros s0. by rewrite handle_status_run. }
    destruct (bool_decide (action_of req = "get_pairing_code")).
    { apply answers_pairing. }
    destruct (bool_decide (action_of req = "send") || bool_decide (action_of req = "test_msg")).
    { apply answers_send. }
    destruct (bool_decide (action_of req = "force_reset")).
    { intros s0. by rewrite handle_force_reset_run. }
    intros s0. done.
  - exists r. by split.
  - eexists. split; [reflexivity|]. cbn. by right.
Qed.
